(** * PianoNet: the note-array codec and the resumable training run

    A shallow embedding of [pianonet/core/note_array.py] (class [NoteArray])
    and of [pianonet/training_utils/run.py] (class [Run]), with the
    properties of the two that the specification states.

    Conventions.
    - Python [int]s are [Z]; [%] and [//] are [Z.modulo] and [Z.div]
      (both floor, the sign follows the divisor), and both raise
      [ZeroDivisionError] on a zero divisor.
    - The [resolution] is a Python number that is only ever compared with
      [1.0] and inverted; it is a rational [Q] here (finite floats compare
      as the rationals they denote; NaN and the infinities are left out).
    - A Python exception is a value of [pyerror]; a call that may raise
      returns a [result].
    - Logging is left out, except where the text of a log line can itself
      raise: [Run] opens its [Logger] base class on [output.log] in the run
      directory and logs throughout. Whatever is said below of the files a
      method writes or leaves alone is said of the files other than that
      log. *)

From Stdlib Require Import ZArith QArith String Ascii List Lia.
From stdpp Require Import gmap strings list pretty.

Local Set Warnings "-register-all".
Local Open Scope Z_scope.

(** ** Exceptions and results *)

(** The exceptions the two classes raise, by the statement that raises them.
    The first four are the [raise Exception(...)] of [NoteArray.__init__],
    in source order; the next two those of [Run.fetch_model] and
    [Run.execute]; the rest are raised by Python or a library. *)
Inductive pyerror : Type :=
  | BothInitializers                  (* "Cannot use both a pianoroll and flat_array initializer. Choose one." *)
  | KeyRangeOverflow (total : Z)      (* "(min_key_index + num_keys) = ..., which is greater than 128" *)
  | ResolutionTooLarge (r : Q)        (* "Provided resolution of ... is greater than 1.0." *)
  | PartialKeyState                   (* "flat_array contains a timestep with a partial key state. ..." *)
  | NoModelSource                     (* "No method of creating or loading the model has been specified ..." *)
  | UnsupportedOptimizer (kind : string) (* "Optimizer type ... not yet supported." *)
  | ZeroDivisionError
  | AttributeError                    (* a method called on None *)
  | ValueError                        (* numpy: reshape, broadcast, negative dimension *)
  | KeyError (key : string)
  | TypeError
  | FileNotFoundError (file : string)
  | CalledProcessError                (* subprocess.run(..., check=True) *)
  | TrainingError.                    (* an exception out of model.fit *)

Inductive result (A : Type) : Type :=
  | Ok (a : A)
  | Raise (e : pyerror).
Arguments Ok {A} a.
Arguments Raise {A} e.

Definition is_ok {A} (r : result A) : bool :=
  match r with Ok _ => true | Raise _ => false end.

Definition raises {A} (r : result A) : Prop := exists e, r = Raise e.

(** ** numpy: slices, 2-D boolean arrays *)

(** The bounds of [a[start:stop]] on an axis of length [n] (step 1): a
    negative bound counts from the end, and both are clipped to [0, n]. *)
Definition slice_bound (n i : Z) : Z :=
  if i <? 0 then Z.max (i + n) 0 else Z.min i n.

Definition slice_range (n start stop : Z) : nat * nat :=
  let lo := slice_bound n start in
  let hi := slice_bound n stop in
  (Z.to_nat lo, Z.to_nat (hi - lo)).

Definition py_slice {A} (l : list A) (n start stop : Z) : list A :=
  let '(lo, w) := slice_range n start stop in take w (drop lo l).

(** A 2-D boolean array of shape [(length rows, ncols)]; the column count is
    kept apart since an array may have no row. *)
Record matrix : Type := Matrix { rows : list (list bool); ncols : nat }.

Definition wf_matrix (m : matrix) : Prop :=
  Forall (fun r => length r = ncols m) (rows m).

Definition cell (m : matrix) (t c : nat) : option bool :=
  rows m !! t ≫= fun r => r !! c.

(** [a[:, start:stop]] *)
Definition crop_columns (m : matrix) (start stop : Z) : matrix :=
  let n := Z.of_nat (ncols m) in
  {| rows := (fun r => py_slice r n start stop) <$> rows m;
     ncols := snd (slice_range n start stop) |}.

(** [a.flatten()], row-major *)
Definition flatten (m : matrix) : list bool := concat (rows m).

Fixpoint chunks {A} (t k : nat) (l : list A) : list (list A) :=
  match t with
  | O => []
  | S t' => take k l :: chunks t' k (drop k l)
  end.

(** [np.reshape(a, (t, k))] of a 1-D array: a negative dimension is the
    unknown one and is inferred from the size; two unknowns, a size that
    does not divide, or a size other than [t * k] raise [ValueError]. *)
Definition reshape (a : list bool) (t k : Z) : result matrix :=
  let n := Z.of_nat (length a) in
  if (t <? 0) && (k <? 0) then Raise ValueError
  else if t <? 0 then
    if (k =? 0) || negb (n mod k =? 0) then Raise ValueError
    else Ok (Matrix (chunks (Z.to_nat (n / k)) (Z.to_nat k) a) (Z.to_nat k))
  else if k <? 0 then
    if (t =? 0) || negb (n mod t =? 0) then Raise ValueError
    else Ok (Matrix (chunks (Z.to_nat t) (Z.to_nat (n / t)) a) (Z.to_nat (n / t)))
  else if n =? t * k then Ok (Matrix (chunks (Z.to_nat t) (Z.to_nat k) a) (Z.to_nat k))
  else Raise ValueError.

(** [np.zeros((t, k)).astype('bool')] *)
Definition zeros (t : Z) (k : nat) : result matrix :=
  if t <? 0 then Raise ValueError
  else Ok (Matrix (replicate (Z.to_nat t) (replicate k false)) k).

(** Broadcasting of a source of shape [(r, k)] to the shape [(t, w)]: each
    axis has the target's length or length 1. *)
Definition broadcast_row (r : list bool) (k w : nat) : option (list bool) :=
  if decide (k = w) then Some r
  else if decide (k = 1%nat) then Some (replicate w (default false (head r)))
  else None.

Definition broadcast_to (src : matrix) (t w : nat) : option (list (list bool)) :=
  rs ← mapM (fun r => broadcast_row r (ncols src) w) (rows src);
  if decide (length rs = t) then Some rs
  else if decide (length rs = 1%nat) then Some (replicate t (default [] (head rs)))
  else None.

(** [dst[:, start:stop] = src] *)
Definition assign_columns (dst : matrix) (start stop : Z) (src : matrix) : result matrix :=
  let '(lo, w) := slice_range (Z.of_nat (ncols dst)) start stop in
  match broadcast_to src (length (rows dst)) w with
  | None => Raise ValueError
  | Some rs =>
      Ok (Matrix (zip_with (fun d s => take lo d ++ s ++ drop (lo + w) d) (rows dst) rs)
                 (ncols dst))
  end.

(** ** The pianoroll container *)

(** Modelled from the spec: the Pianoroll class, [pianonet/core/pianoroll.py],
    which is not among the sources. A pianoroll holds a key-state matrix
    (rows are time steps, columns the 128 key indices); its time-stretch is
    the container's own business and stays a parameter. [get_copy] is the
    identity on values. *)
Definition NUM_PIANO_KEYS : nat := 128.

Class PianorollOps : Type := { stretch : Q -> matrix -> matrix }.

Definition is_pianoroll (m : matrix) : Prop :=
  ncols m = NUM_PIANO_KEYS /\ wf_matrix m.

(** Whether column [c] is one of the [k] keys from [m] on. *)
Definition in_key_range (m k : Z) (c : nat) : bool :=
  (m <=? Z.of_nat c) && (Z.of_nat c <? m + k).

(** The matrix [get_pianoroll] builds before it looks at the resolution, for
    an array of [t] time steps of [k] keys placed from key [m] on. *)
Definition unflattened (flat : list bool) (m k : Z) (t : nat) : matrix :=
  Matrix (zip_with (fun d s => take (Z.to_nat m) d ++ s ++ drop (Z.to_nat m + Z.to_nat k) d)
            (replicate t (replicate 128 false)) (chunks t (Z.to_nat k) flat))
         128.

(** ** NoteArray *)

Module NoteArray.

Record t : Type := Make {
  min_key_index : Z;
  num_keys : Z;
  resolution : Q;
  time_steps : Z;
  array : list bool
}.

Section Codec.
Context `{PianorollOps}.

(** [NoteArray.__init__]. [pianoroll] is [None] or a Pianoroll, [flat_array]
    is [None] or a 1-D ndarray. *)
Definition init (pianoroll : option matrix) (flat_array : option (list bool))
    (min_key_index num_keys : Z) (resolution : Q) : result t :=
  if bool_decide (is_Some pianoroll) && bool_decide (is_Some flat_array)
  then Raise BothInitializers
  else if 128 <? min_key_index + num_keys
  then Raise (KeyRangeOverflow (min_key_index + num_keys))
  else if negb (Qle_bool resolution 1)
  then Raise (ResolutionTooLarge resolution)
  else
    match flat_array with
    | Some flat =>
        let n := Z.of_nat (length flat) in
        if num_keys =? 0 then Raise ZeroDivisionError
        else if negb (n mod num_keys =? 0) then Raise PartialKeyState
        else Ok (Make min_key_index num_keys resolution (n / num_keys) flat)
    | None =>
        match pianoroll with
        | None => Raise AttributeError
        | Some p =>
            let p := if negb (Qeq_bool resolution 1) then stretch resolution p else p in
            let cropped := crop_columns p min_key_index (min_key_index + num_keys) in
            Ok (Make min_key_index num_keys resolution
                     (Z.of_nat (length (rows p))) (flatten cropped))
        end
    end.

(** [NoteArray.get_pianoroll] *)
Definition get_pianoroll (na : t) : result matrix :=
  match reshape (array na) (time_steps na) (num_keys na) with
  | Raise e => Raise e
  | Ok cropped =>
      match zeros (time_steps na) NUM_PIANO_KEYS with
      | Raise e => Raise e
      | Ok blank =>
          match assign_columns blank (min_key_index na)
                  (min_key_index na + num_keys na) cropped with
          | Raise e => Raise e
          | Ok low =>
              if Qeq_bool (resolution na) 1 then Ok low
              else if Qeq_bool (resolution na) 0 then Raise ZeroDivisionError
              else Ok (stretch (1 / resolution na) low)
          end
      end
  end.

Definition get_length_in_notes (na : t) : Z := Z.of_nat (length (array na)).

Definition get_length_in_timesteps (na : t) : result Z :=
  if num_keys na =? 0 then Raise ZeroDivisionError
  else Ok (get_length_in_notes na / num_keys na).

End Codec.
End NoteArray.

(** ** JSON values, paths and files *)

(** The values a run description or a state record holds. *)
Inductive json : Type :=
  | JInt (z : Z)
  | JFloat (q : Q)
  | JStr (s : string)
  | JDict (d : gmap string json).

(** [d[key]] *)
Definition getitem (d : gmap string json) (key : string) : result json :=
  match d !! key with
  | Some v => Ok v
  | None => Raise (KeyError key)
  end.

(** [del d[key]] *)
Definition delitem (d : gmap string json) (key : string) : result (gmap string json) :=
  match d !! key with
  | Some _ => Ok (delete key d)
  | None => Raise (KeyError key)
  end.

(** Subscripting needs a dictionary, a path a string, arithmetic a number:
    where run.py puts a configuration value to such a use, a value of
    another type raises [TypeError] here. *)
Definition as_dict (j : json) : result (gmap string json) :=
  match j with JDict d => Ok d | _ => Raise TypeError end.

Definition as_str (j : json) : result string :=
  match j with JStr s => Ok s | _ => Raise TypeError end.

Definition as_int (j : json) : result Z :=
  match j with JInt z => Ok z | _ => Raise TypeError end.

Definition as_number (j : json) : result Q :=
  match j with
  | JInt z => Ok (inject_Z z)
  | JFloat q => Ok q
  | _ => Raise TypeError
  end.

(** [j + k] and [j == k] for an int literal [k] *)
Definition py_add (j : json) (k : Z) : result json :=
  match j with
  | JInt z => Ok (JInt (z + k))
  | JFloat q => Ok (JFloat (q + inject_Z k))
  | _ => Raise TypeError
  end.

Definition py_eq_int (j : json) (k : Z) : bool :=
  match j with
  | JInt z => z =? k
  | JFloat q => Qeq_bool q (inject_Z k)
  | _ => false
  end.

(** [j == s] for a string literal [s] *)
Definition py_eq_str (j : json) (s : string) : bool :=
  match j with
  | JStr s' => bool_decide (s' = s)
  | _ => false
  end.

(** [int(x)] of a number: truncation towards zero *)
Definition py_int (q : Q) : Z := Z.quot (Qnum q) (Z.pos (Qden q)).

(** [posixpath.join(a, b)] *)
Definition starts_with_slash (s : string) : bool :=
  match s with
  | String c _ => bool_decide (c = "/"%char)
  | EmptyString => false
  end.

Fixpoint ends_with_slash (s : string) : bool :=
  match s with
  | EmptyString => false
  | String c EmptyString => bool_decide (c = "/"%char)
  | String _ r => ends_with_slash r
  end.

Definition path_join (a b : string) : string :=
  if starts_with_slash b then b
  else if bool_decide (a = "") || ends_with_slash a then a +:+ b
  else a +:+ "/" +:+ b.

(** [posixpath.basename]: what follows the last slash *)
Fixpoint basename_from (acc s : string) : string :=
  match s with
  | EmptyString => acc
  | String c r =>
      if bool_decide (c = "/"%char) then basename_from "" r
      else basename_from (acc +:+ String c "") r
  end.

Definition basename (s : string) : string := basename_from "" s.

Fixpoint last_char (s : string) : option ascii :=
  match s with
  | EmptyString => None
  | String c EmptyString => Some c
  | String _ r => last_char r
  end.

Fixpoint slash_free (s : string) : bool :=
  match s with
  | EmptyString => true
  | String c r => negb (bool_decide (c = "/"%char)) && slash_free r
  end.

(** Whether the file at path [f] is named ["<index>_..."]. *)
Definition index_prefixed (index : Z) (f : string) : bool :=
  String.prefix (pretty index +:+ "_") (basename f).

(** ** The run's collaborators *)

(** The model, the data and the sample generator are outside the run; the run
    only moves them around. What it asks of them: *)
Class Collaborators : Type := {
  Model : Type;
  MasterNoteArray : Type;
  Generator : Type;
  GeneratorState : Type;
  Optimizer : Type;
  (* master_note_array.note_array_transformer.num_keys *)
  transformer_num_keys : MasterNoteArray -> Z;
  get_model_input_shape : Model -> Z;
  (* NoteSampleGenerator(master_note_array, num_notes_in_model_input,
       num_predicted_notes_in_sample = num_keys * <steps>, batch_size,
       random_seed=0); the product is formed on the way in *)
  new_generator : MasterNoteArray -> Z -> Z -> json -> json -> result Generator;
  generator_state : Generator -> GeneratorState;                   (* what save_state writes *)
  generator_load_state : Generator -> GeneratorState -> Generator; (* load_state *)
  get_total_batches_count : Generator -> Z;
  (* the model creator script, run as "python <path> <params file> <output>":
     the model it leaves at the output path, or a non-zero exit *)
  create_model : string -> json -> option Model;
  adam : gmap string json -> result Optimizer;                     (* Adam, from the kwargs *)
  compile : Model -> Optimizer -> Model;
  (* one training step of model.fit: the model and the generator after
     it, or an exception *)
  train_on_batch : Model -> Generator -> option (Model * Generator);
  (* ExecuteEveryNBatchesCallback(run_frequency_in_batches = n): whether
     the method runs at the end of the batch-th batch *)
  checkpoint_due : json -> nat -> bool;
  (* str(x) of a float or a dictionary, whose text Python decides *)
  py_repr : json -> string;
  (* q * n for a float q and an int n: the product as Python rounds it to a
     float *)
  float_times : Q -> Z -> Q
}.

Module Run.
Section WithCollaborators.
Context `{Collaborators}.

Inductive file : Type :=
  | FJson (d : gmap string json)
  | FPickle (j : json)
  | FModel (m : Model)
  | FMasterNoteArray (a : MasterNoteArray)
  | FGeneratorState (g : GeneratorState).

(** The file system, with the paths written so far, oldest first. The log
    file [output.log] of the run directory, which the Logger base class
    opens and every [self.log] appends to, is not part of it: [files] and
    [written] are about every other file. *)
Record world : Type := World {
  files : gmap string file;
  written : list string
}.

(** The Run instance: its attributes, [None] until assigned. *)
Record t : Type := Make {
  path : string;
  state : gmap string json;
  model : option Model;
  num_keys : option Z;
  training_master_note_array : option MasterNoteArray;
  validation_master_note_array : option MasterNoteArray
}.

(** A method of Run: it may change the instance and the file system, and it
    returns or raises; what it changed stays changed when it raises. *)
Definition M (A : Type) : Type := t * world -> result A * (t * world).

Definition ret {A} (a : A) : M A := fun s => (Ok a, s).

Definition bind {A B} (m : M A) (k : A -> M B) : M B :=
  fun s =>
    match m s with
    | (Ok a, s') => k a s'
    | (Raise e, s') => (Raise e, s')
    end.

Definition lift {A} (r : result A) : M A := fun s => (r, s).

Definition raise {A} (e : pyerror) : M A := lift (Raise e).

Definition self : M t := fun s => (Ok (fst s), s).

Definition update (f : t -> t) : M unit := fun s => (Ok tt, (f (fst s), snd s)).

Definition get {A} (field : t -> option A) : M A :=
  fun s =>
    match field (fst s) with
    | Some a => (Ok a, s)
    | None => (Raise AttributeError, s)
    end.
Notation "x <- m ;; k" := (bind m (fun x => k))
  (at level 100, m at next level, right associativity).

Definition set_state (d : gmap string json) (r : t) : t :=
  Make (path r) d (model r) (num_keys r)
       (training_master_note_array r) (validation_master_note_array r).

Definition set_model (m : Model) (r : t) : t :=
  Make (path r) (state r) (Some m) (num_keys r)
       (training_master_note_array r) (validation_master_note_array r).

Definition set_training_data (training : MasterNoteArray) (r : t) : t :=
  Make (path r) (state r) (model r) (Some (transformer_num_keys training))
       (Some training) (validation_master_note_array r).

Definition set_validation_data (validation : MasterNoteArray) (r : t) : t :=
  Make (path r) (state r) (model r) (num_keys r)
       (training_master_note_array r) (Some validation).

(** *** Files *)

Definition path_exists (p : string) : M bool :=
  fun s => (Ok (bool_decide (is_Some (files (snd s) !! p))), s).

Definition read_file (p : string) : M file :=
  fun s =>
    match files (snd s) !! p with
    | Some f => (Ok f, s)
    | None => (Raise (FileNotFoundError p), s)
    end.

Definition write_file (p : string) (f : file) : M unit :=
  fun s =>
    (Ok tt, (fst s, World (<[p := f]> (files (snd s))) (written (snd s) ++ [p]))).

(** [os.remove] *)
Definition remove_file (p : string) : M unit :=
  fun s =>
    match files (snd s) !! p with
    | Some _ => (Ok tt, (fst s, World (delete p (files (snd s))) (written (snd s))))
    | None => (Raise (FileNotFoundError p), s)
    end.

(** Modelled from the spec: [load_dictionary_from_json_file] and
    [save_dictionary_to_json_file] of [pianonet/core/misc_tools.py], which is
    not among the sources: the persisted record is read back as the
    dictionary that was saved. *)
Definition load_dictionary_from_json_file (json_file_path : string) : M (gmap string json) :=
  f <- read_file json_file_path ;;
  match f with
  | FJson d => ret d
  | _ => raise ValueError
  end.

Definition save_dictionary_to_json_file (dictionary : gmap string json)
    (json_file_path : string) : M unit :=
  write_file json_file_path (FJson dictionary).

(** [load_model(path)] of Keras and [MasterNoteArray(file_path=...)] *)
Definition load_model (p : string) : M Model :=
  f <- read_file p ;;
  match f with
  | FModel m => ret m
  | _ => raise ValueError
  end.

Definition load_master_note_array (p : string) : M MasterNoteArray :=
  f <- read_file p ;;
  match f with
  | FMasterNoteArray a => ret a
  | _ => raise ValueError
  end.

(** *** Paths and the state record *)

Definition get_full_path_from_run_file_name (r : t) (file_name : string) : string :=
  path_join (path r) file_name.

Definition get_state_path (r : t) : string :=
  path_join (path r) "state.json".

Definition get_run_description_path (r : t) : string :=
  path_join (path r) "run_description.json".

Definition save_state : M unit :=
  r <- self ;;
  save_dictionary_to_json_file (state r) (get_state_path r).

Definition load_state : M unit :=
  r <- self ;;
  d <- load_dictionary_from_json_file (get_state_path r) ;;
  update (set_state d).

Definition get_run_index : M json :=
  r <- self ;; lift (getitem (state r) "run_index").

Definition get_status : M json :=
  r <- self ;; lift (getitem (state r) "status").

(** [fraction * n] for the int [n]: exact for an int, rounded for a float *)
Definition py_times (fraction : json) (n : Z) : result Q :=
  match fraction with
  | JInt z => Ok (inject_Z (z * n))
  | JFloat q => Ok (float_times q n)
  | _ => Raise TypeError
  end.

(** [str(index)] *)
Definition py_str (j : json) : string :=
  match j with
  | JInt z => pretty z
  | JStr s => s
  | _ => py_repr j
  end.

Definition get_index_prepended_file_base_name (index : json) (file_base_name : string) : string :=
  py_str index +:+ "_" +:+ file_base_name.

Definition get_previous_run_index_prefixed_path (file_base_name : string) : M string :=
  r <- self ;;
  i <- get_run_index ;;
  j <- lift (py_add i (-1)) ;;
  ret (get_full_path_from_run_file_name r
         (get_index_prepended_file_base_name j file_base_name)).

Definition get_run_index_prefixed_path (file_base_name : string) : M string :=
  r <- self ;;
  i <- get_run_index ;;
  ret (get_full_path_from_run_file_name r
         (get_index_prepended_file_base_name i file_base_name)).

(** *** Construction: a new run or a resumed one *)

(** [Run.__init__] up to its call of [execute]: the run description it builds.
    [run_path] is the absolute path of the run directory. The attributes of
    a Run before [__init__] has assigned any: *)
Definition blank (run_path : string) : t :=
  Make run_path ∅ None None None None.

Definition resume_or_start : M (gmap string json) :=
  r <- self ;;
  run_description <- load_dictionary_from_json_file (get_run_description_path r) ;;
  saved <- path_exists (get_state_path r) ;;
  if (saved : bool) then
    _ <- load_state ;;
    r <- self ;;
    i <- lift (getitem (state r) "run_index") ;;
    i' <- lift (py_add i 1) ;;
    _ <- update (set_state (<["run_index" := i']> (state r))) ;;
    previous_model_path <- get_previous_run_index_prefixed_path "trained.model" ;;
    md <- lift (getitem run_description "model_description") ;;
    md <- lift (as_dict md) ;;
    md <- lift (delitem (<["model_path" := JStr previous_model_path]> md) "model_initializer") ;;
    ret (<["model_description" := JDict md]> run_description)
  else
    _ <- update (set_state (<["run_index" := JInt 0]> (<["status" := JStr "running"]> ∅))) ;;
    ret run_description.

(** *** Data and model *)

Definition fetch_data (data_description : json) : M unit :=
  dd <- lift (as_dict data_description) ;;
  p <- lift (getitem dd "training_master_note_array_path") ;;
  p <- lift (as_str p) ;;
  training <- load_master_note_array p ;;
  _ <- update (set_training_data training) ;;
  q <- lift (getitem dd "validation_master_note_array_path") ;;
  q <- lift (as_str q) ;;
  validation <- load_master_note_array q ;;
  update (set_validation_data validation).

Definition fetch_model (model_description : json) : M unit :=
  md <- lift (as_dict model_description) ;;
  model_path <- lift (getitem md "model_path") ;;
  _ <- (if py_eq_str model_path "" && bool_decide (is_Some (md !! "model_initializer"))
        then
          mi <- lift (getitem md "model_initializer") ;;
          mi <- lift (as_dict mi) ;;
          creator <- lift (getitem mi "path") ;;
          creator <- lift (as_str creator) ;;
          params <- lift (getitem mi "params") ;;
          r <- self ;;
          model_output_path <- get_run_index_prefixed_path "initial.model" ;;
          let model_parameters_file_path :=
            get_full_path_from_run_file_name r "model_parameters" in
          _ <- write_file model_parameters_file_path (FPickle params) ;;
          _ <- match create_model creator params with
               | Some m => write_file model_output_path (FModel m)
               | None => raise CalledProcessError
               end ;;
          _ <- remove_file model_parameters_file_path ;;
          m <- load_model model_output_path ;;
          update (set_model m)
        else if negb (py_eq_str model_path "")
        then
          p <- lift (as_str model_path) ;;
          m <- load_model p ;;
          update (set_model m)
        else raise NoModelSource) ;;
  m <- get model ;;
  k <- get num_keys ;;
  (* time_steps_receptive_field = num_notes_in_model_input / num_keys *)
  if k =? 0 then raise ZeroDivisionError else ret tt.

(** *** Checkpoints and the training loop *)

(** The method [checkpoint_method_creator] returns; the generator is the one
    the training loop is drawing from, in its current state. *)
Definition checkpoint_method (training_note_sample_generator : Generator) : M unit :=
  _ <- save_state ;;
  m <- get model ;;
  p <- get_run_index_prefixed_path "trained.model" ;;
  _ <- write_file p (FModel m) ;;
  generator_checkpoint_path <- get_run_index_prefixed_path "generator_state.gs" ;;
  write_file generator_checkpoint_path
    (FGeneratorState (generator_state training_note_sample_generator)).

(** [model.fit] with its two callbacks, over [n] more batches after [batch]
    processed ones: a training step, then ModelCheckpoint (save_freq=1)
    saves the model under [model_save_name], then the every-N-batches
    callback runs the checkpoint method when it is due. The validation pass
    at the end of an epoch touches neither the run nor a file. *)
Fixpoint fit (n batch : nat) (generator : Generator) (model_save_name : string)
    (checkpoint_frequency : json) : M unit :=
  match n with
  | O => ret tt
  | S n' =>
      m <- get model ;;
      match train_on_batch m generator with
      | None => raise TrainingError
      | Some (m', generator') =>
          _ <- update (set_model m') ;;
          _ <- write_file model_save_name (FModel m') ;;
          _ <- (if checkpoint_due checkpoint_frequency (S batch)
                then checkpoint_method generator'
                else ret tt) ;;
          fit n' (S batch) generator' model_save_name checkpoint_frequency
      end
  end.

(** [Run.execute] *)
Definition execute (run_description : gmap string json) : M unit :=
  p <- get_run_index_prefixed_path "run_desciption.json" ;;
  _ <- save_dictionary_to_json_file run_description p ;;
  dd <- lift (getitem run_description "data_description") ;;
  _ <- fetch_data dd ;;
  md <- lift (getitem run_description "model_description") ;;
  _ <- fetch_model md ;;
  td <- lift (getitem run_description "training_description") ;;
  td <- lift (as_dict td) ;;
  training_batch_size <- lift (getitem td "batch_size") ;;
  k <- get num_keys ;;
  training_steps <- lift (getitem td "num_predicted_time_steps_in_sample") ;;
  m <- get model ;;
  let num_notes_in_model_input := get_model_input_shape m in
  training <- get training_master_note_array ;;
  training_generator <-
    lift (new_generator training num_notes_in_model_input k training_steps training_batch_size) ;;
  vd <- lift (getitem run_description "validation_description") ;;
  vd <- lift (as_dict vd) ;;
  validation_batch_size <- lift (getitem vd "batch_size") ;;
  validation_steps <- lift (getitem vd "num_predicted_time_steps_in_sample") ;;
  validation <- get validation_master_note_array ;;
  validation_generator <-
    lift (new_generator validation num_notes_in_model_input k validation_steps
            validation_batch_size) ;;
  i <- get_run_index ;;
  training_generator <-
    (if negb (py_eq_int i 0)
     then
       generator_checkpoint_path <- get_previous_run_index_prefixed_path "generator_state.gs" ;;
       f <- read_file generator_checkpoint_path ;;
       match f with
       | FGeneratorState g => ret (generator_load_state training_generator g)
       | _ => raise ValueError
       end
     else ret training_generator) ;;
  od <- lift (getitem td "optimizer_description") ;;
  od <- lift (as_dict od) ;;
  kind <- lift (getitem od "type") ;;
  optimizer <-
    (if py_eq_str kind "Adam"
     then
       kwargs <- lift (getitem od "kwargs") ;;
       kwargs <- lift (as_dict kwargs) ;;
       lift (adam kwargs)
     else
       kind <- lift (as_str kind) ;;
       raise (UnsupportedOptimizer kind)) ;;
  i <- get_run_index ;;
  _ <- (if py_eq_int i 0
        then m <- get model ;; update (set_model (compile m optimizer))
        else ret tt) ;;
  model_save_name <- get_run_index_prefixed_path "trained.model" ;;
  fraction_training <- lift (getitem td "fraction_data_each_epoch") ;;
  fraction_validation <- lift (getitem vd "fraction_data_each_epoch") ;;
  epochs <- lift (getitem td "epochs") ;;
  training_product <-
    lift (py_times fraction_training (get_total_batches_count training_generator)) ;;
  let training_steps_per_epoch := py_int training_product in
  validation_product <-
    lift (py_times fraction_validation (get_total_batches_count validation_generator)) ;;
  checkpoint_frequency <- lift (getitem td "checkpoint_frequency_in_steps") ;;
  epochs <- lift (as_int epochs) ;;
  fit (Z.to_nat epochs * Z.to_nat training_steps_per_epoch) 0 training_generator
      model_save_name checkpoint_frequency.

(** [Run.__init__] *)
Definition init : M unit :=
  run_description <- resume_or_start ;;
  execute run_description.

(** [Run(path)] on a file system *)
Definition construct (run_path : string) (fs : gmap string file) : result unit * (t * world) :=
  init (blank run_path, World fs []).

(** *** What a method keeps *)

(** The state record [st0], the directory [p0], and that every file written
    has a name [P] allows. *)
Definition inv (st0 : gmap string json) (p0 : string) (P : string -> Prop)
    (s : t * world) : Prop :=
  state (fst s) = st0 /\ path (fst s) = p0 /\ Forall P (written (snd s)).

(** [triple st0 p0 P m Q]: [m] keeps the invariant, whether it returns or
    raises, and what it returns satisfies [Q]. *)
Definition triple (st0 : gmap string json) (p0 : string) (P : string -> Prop)
    {A} (m : M A) (Q : A -> Prop) : Prop :=
  forall s, inv st0 p0 P s ->
    inv st0 p0 P (snd (m s)) /\ forall a, fst (m s) = Ok a -> Q a.

(** The same for the state record on disk: the run's state is [st0], its
    directory [p0], and [state.json] holds what it held at the start, [f0],
    or the state record [st0]. *)
Definition record_kept (st0 : gmap string json) (p0 : string) (f0 : option file)
    (s : t * world) : Prop :=
  state (fst s) = st0 /\ path (fst s) = p0 /\
  (files (snd s) !! path_join p0 "state.json" = f0 \/
   files (snd s) !! path_join p0 "state.json" = Some (FJson st0)).

Definition keeps_record (st0 : gmap string json) (p0 : string) (f0 : option file)
    {A} (m : M A) (Q : A -> Prop) : Prop :=
  forall s, record_kept st0 p0 f0 s ->
    record_kept st0 p0 f0 (snd (m s)) /\ forall a, fst (m s) = Ok a -> Q a.

End WithCollaborators.
End Run.

(** ** Sample inputs *)

(** A stretch that resamples nothing, for running the codec. *)
Definition no_stretch : PianorollOps := {| stretch := fun _ m => m |}.

(** A 128-key row with key [c] down, and a two-step pianoroll. *)
Definition row_with (c : nat) : list bool := <[c := true]> (replicate 128 false).

Definition sample_pianoroll : matrix := Matrix [row_with 30; row_with 125] 128.

(** Collaborators small enough to run: a model is the number of training
    steps it has seen, a generator its cursor, a master note array its key
    count; the checkpoint method is due every [n]-th batch. *)
Definition toy : Collaborators := {|
  Model := nat;
  MasterNoteArray := Z;
  Generator := nat;
  GeneratorState := nat;
  Optimizer := unit;
  transformer_num_keys := fun a => a;
  get_model_input_shape := fun _ => 880;
  new_generator := fun _ _ _ _ _ => Ok 0%nat;
  generator_state := fun g => g;
  generator_load_state := fun _ g => g;
  get_total_batches_count := fun _ => 4;
  create_model := fun _ _ => Some 0%nat;
  adam := fun _ => Ok tt;
  compile := fun m _ => m;
  train_on_batch := fun m g => Some (S m, S g);
  checkpoint_due := fun n batch =>
    match n with
    | JInt z => negb (z =? 0) && (Z.of_nat batch mod z =? 0)
    | _ => false
    end;
  py_repr := fun _ => "";
  float_times := fun q n => (q * inject_Z n)%Q
|}.

Definition dict (l : list (string * json)) : gmap string json := list_to_map l.

Definition sample_description (model_description : gmap string json) : gmap string json :=
  dict [
    ("data_description", JDict (dict [
       ("training_master_note_array_path", JStr "/data/training.mna");
       ("validation_master_note_array_path", JStr "/data/validation.mna")]));
    ("model_description", JDict model_description);
    ("training_description", JDict (dict [
       ("batch_size", JInt 8);
       ("num_predicted_time_steps_in_sample", JInt 4);
       ("optimizer_description", JDict (dict [("type", JStr "Adam"); ("kwargs", JDict ∅)]));
       ("fraction_data_each_epoch", JFloat (1 # 2));
       ("epochs", JInt 2);
       ("checkpoint_frequency_in_steps", JInt 2)]));
    ("validation_description", JDict (dict [
       ("batch_size", JInt 8);
       ("num_predicted_time_steps_in_sample", JInt 4);
       ("fraction_data_each_epoch", JFloat (1 # 2))]))
  ].

(** A run description that builds its model, and one that names a saved one. *)
Definition sample_initializer : json :=
  JDict (dict [("path", JStr "make_model.py"); ("params", JDict ∅)]).

Definition building_model : gmap string json :=
  dict [("model_path", JStr ""); ("model_initializer", sample_initializer)].

Definition building_description : gmap string json :=
  sample_description building_model.

Definition loading_description : gmap string json :=
  sample_description (dict [("model_path", JStr "/models/seed.model")]).

Definition running_state (run_index : Z) : gmap string json :=
  dict [("run_index", JInt run_index); ("status", JStr "running")].

Definition data_files : list (string * @Run.file toy) :=
  [("/data/training.mna", Run.FMasterNoteArray (88 : @MasterNoteArray toy));
   ("/data/validation.mna", Run.FMasterNoteArray (88 : @MasterNoteArray toy));
   ("/models/seed.model", Run.FModel (0%nat : @Model toy))].

(** A new run directory [/runs/a]; one stopped at run index 2 with its
    checkpoint; and one stopped at run index 0 whose description names a
    saved model and has no model initializer. *)
Definition fresh_directory : gmap string (@Run.file toy) :=
  list_to_map (("/runs/a/run_description.json", Run.FJson building_description) :: data_files).

Definition stopped_directory : gmap string (@Run.file toy) :=
  list_to_map (("/runs/a/run_description.json", Run.FJson building_description)
               :: ("/runs/a/state.json", Run.FJson (running_state 2))
               :: ("/runs/a/2_trained.model", Run.FModel (7%nat : @Model toy))
               :: ("/runs/a/2_generator_state.gs", Run.FGeneratorState (7%nat : @GeneratorState toy))
               :: data_files).

Definition stopped_directory_without_initializer : gmap string (@Run.file toy) :=
  list_to_map (("/runs/a/run_description.json", Run.FJson loading_description)
               :: ("/runs/a/state.json", Run.FJson (running_state 0))
               :: ("/runs/a/0_trained.model", Run.FModel (7%nat : @Model toy))
               :: ("/runs/a/0_generator_state.gs", Run.FGeneratorState (7%nat : @GeneratorState toy))
               :: data_files).

Definition fresh_run := @Run.construct toy "/runs/a" fresh_directory.
Definition resumed_run := @Run.construct toy "/runs/a" stopped_directory.
Definition resumed_run_without_initializer :=
  @Run.construct toy "/runs/a" stopped_directory_without_initializer.

(** A run at index 2 that holds a model, before any file is written. *)
Definition sample_run : @Run.t toy :=
  Run.Make "/runs/a" (running_state 2) (Some (7%nat : @Model toy)) None None None.

(** The new directory's run as [__init__] hands it to [execute]. *)
Definition fresh_start : @Run.t toy * @Run.world toy :=
  (Run.set_state (running_state 0) (Run.blank "/runs/a"), Run.World fresh_directory []).

(** The sample run resumed (index 3), and with its data fetched (88 keys). *)
Definition sample_run_resumed : @Run.t toy :=
  Run.Make "/runs/a" (running_state 3) (Some (7%nat : @Model toy)) None None None.

Definition sample_run_with_data : @Run.t toy :=
  Run.Make "/runs/a" (running_state 2) None (Some 88)
           (Some (88 : @MasterNoteArray toy)) (Some (88 : @MasterNoteArray toy)).

Definition data_directory : gmap string (@Run.file toy) := list_to_map data_files.

Definition sample_data_description : gmap string json :=
  dict [("training_master_note_array_path", JStr "/data/training.mna");
        ("validation_master_note_array_path", JStr "/data/validation.mna")].

(** A model description with both a saved model and a model initializer. *)
Definition both_model : gmap string json :=
  dict [("model_path", JStr "/models/seed.model"); ("model_initializer", sample_initializer)].

(** Directories a run cannot be constructed on: a state record without a run
    index, and a run description without a model description. *)
Definition directory_without_run_index : gmap string (@Run.file toy) :=
  list_to_map [("/runs/a/run_description.json", Run.FJson building_description);
               ("/runs/a/state.json", Run.FJson ∅)].

Definition directory_without_model_description : gmap string (@Run.file toy) :=
  list_to_map [("/runs/a/run_description.json", Run.FJson ∅);
               ("/runs/a/state.json", Run.FJson (running_state 0))].

(** * Properties *)

(** ** The codec *)

Section CodecFacts.
Context `{PianorollOps}.

Lemma Qle_bool_false (a b : Q) : Qle_bool a b = false <-> (b < a)%Q.
Proof.
  split; intros Hab.
  - apply Qnot_le_lt. intros Hle. apply Qle_bool_iff in Hle. congruence.
  - destruct (Qle_bool a b) eqn:E; [|reflexivity].
    apply Qle_bool_iff in E. exfalso. exact (Qlt_not_le _ _ Hab E).
Qed.

(** C9: a call that gives both a pianoroll and a flat array raises the
    "Cannot use both ..." exception, whatever the other arguments. *)
Theorem init_both_initializers (p : matrix) (flat : list bool) (m k : Z) (r : Q) :
  NoteArray.init (Some p) (Some flat) m k r = Raise BothInitializers.
Proof. reflexivity. Qed.

(** C10: a call that gives neither a pianoroll nor a flat array raises: past
    the argument checks it calls [get_copy] on [None]. No NoteArray comes
    out of it. *)
Theorem init_no_initializer (m k : Z) (r : Q) :
  raises (NoteArray.init None None m k r).
Proof.
  unfold NoteArray.init, raises. simpl.
  destruct (128 <? m + k); [eauto|].
  destruct (Qle_bool r 1); simpl; eauto.
Qed.

(** C8: a flat array whose length [num_keys] does not divide is refused,
    whatever the other arguments, and with valid arguments by the "partial
    key state" exception; one whose length [num_keys] divides is accepted
    (valid key range, [num_keys] not zero, resolution at most 1) and
    [time_steps] is the length divided by [num_keys]. *)
Theorem init_flat_array (p : option matrix) (flat : list bool) (m k : Z) (r : Q) :
  let n := Z.of_nat (length flat) in
  (~ (k | n) -> raises (NoteArray.init p (Some flat) m k r)) /\
  (~ (k | n) -> k <> 0 -> m + k <= 128 -> (r <= 1)%Q ->
     NoteArray.init None (Some flat) m k r = Raise PartialKeyState) /\
  ((k | n) -> k <> 0 -> m + k <= 128 -> (r <= 1)%Q ->
     NoteArray.init None (Some flat) m k r = Ok (NoteArray.Make m k r (n / k) flat)).
Proof.
  intros n. unfold NoteArray.init, raises. fold n. split; [|split].
  - intros Hnd.
    destruct (bool_decide (is_Some p) && _); [eauto|].
    destruct (128 <? m + k); [eauto|].
    destruct (negb (Qle_bool r 1)); [eauto|].
    destruct (Z.eqb_spec k 0) as [->|Hk]; [eauto|].
    destruct (Z.eqb_spec (n mod k) 0) as [Hmod|Hmod]; simpl; [|eauto].
    apply Z.mod_divide in Hmod; [contradiction|assumption].
  - intros Hnd Hk Hrange Hr. simpl.
    apply Z.ltb_ge in Hrange. rewrite Hrange.
    apply Qle_bool_iff in Hr. rewrite Hr. simpl.
    apply Z.eqb_neq in Hk as Hk'. rewrite Hk'.
    destruct (Z.eqb_spec (n mod k) 0) as [Hmod|Hmod]; simpl; [|reflexivity].
    apply Z.mod_divide in Hmod; [contradiction|assumption].
  - intros Hd Hk Hrange Hr. simpl.
    apply Z.ltb_ge in Hrange. rewrite Hrange.
    apply Qle_bool_iff in Hr. rewrite Hr. simpl.
    apply Z.eqb_neq in Hk as Hk'. rewrite Hk'.
    apply Z.mod_divide in Hd; [|assumption]. rewrite Hd. reflexivity.
Qed.

(** Whatever [init] returns keeps the arguments it was given, and its
    resolution is at most 1. *)
Lemma init_resolution_le_1 (p : option matrix) (flat : option (list bool)) (m k : Z) (r : Q)
    (na : NoteArray.t) :
  NoteArray.init p flat m k r = Ok na ->
  NoteArray.resolution na = r /\ (r <= 1)%Q.
Proof.
  unfold NoteArray.init. intros Hinit.
  destruct (bool_decide (is_Some p) && _); [discriminate|].
  destruct (128 <? m + k); [discriminate|].
  destruct (Qle_bool r 1) eqn:Hr; simpl in Hinit; [|discriminate].
  apply Qle_bool_iff in Hr. split; [|assumption].
  destruct flat as [flat|].
  - destruct (k =? 0); [discriminate|].
    destruct (negb _); [discriminate|]. by inversion Hinit.
  - destruct p; [|discriminate]. by inversion Hinit.
Qed.

(** C5: the constructor has no lower bound on the resolution. At resolution 0
    it returns a NoteArray whose resolution is 0, outside (0, 1]. *)
Theorem init_accepts_resolution_zero :
  NoteArray.init None (Some (replicate 88 false)) 0 88 0
  = Ok (NoteArray.Make 0 88 0 1 (replicate 88 false)).
Proof. reflexivity. Qed.

(** C6: the constructor does not tie a flat array to resolution 1: with a
    flat array and resolution 1/2 it returns a NoteArray of resolution 1/2. *)
Theorem init_flat_array_any_resolution :
  NoteArray.init None (Some (replicate 88 false)) 0 88 (1 # 2)
  = Ok (NoteArray.Make 0 88 (1 # 2) 1 (replicate 88 false)).
Proof. reflexivity. Qed.

(** *** Encoding and decoding at full resolution *)

Lemma slice_range_inside (n a k : Z) :
  0 <= a -> 0 <= k -> a + k <= n ->
  slice_range n a (a + k) = (Z.to_nat a, Z.to_nat k).
Proof.
  intros Ha Hk Hn. unfold slice_range, slice_bound.
  destruct (Z.ltb_spec a 0); [lia|].
  destruct (Z.ltb_spec (a + k) 0); [lia|].
  f_equal; f_equal; lia.
Qed.

Lemma chunks_concat {A} (k : nat) (rs : list (list A)) :
  Forall (fun r => length r = k) rs ->
  chunks (length rs) k (concat rs) = rs.
Proof.
  induction 1 as [|r rs Hr _ IH]; [reflexivity|].
  simpl. subst k. by rewrite take_app_length, drop_app_length, IH.
Qed.

Lemma length_concat_uniform {A} (k : nat) (rs : list (list A)) :
  Forall (fun r => length r = k) rs ->
  length (concat rs) = (length rs * k)%nat.
Proof.
  induction 1 as [|r rs Hr _ IH]; [reflexivity|].
  simpl. rewrite length_app, IH. lia.
Qed.

Lemma mapM_broadcast_row_same (k : nat) (rs : list (list bool)) :
  mapM (fun r => broadcast_row r k k) rs = Some rs.
Proof.
  induction rs as [|r rs IH]; [reflexivity|].
  cbn [mapM]. rewrite IH. unfold broadcast_row.
  by rewrite decide_True.
Qed.

Lemma broadcast_to_same (src : matrix) :
  broadcast_to src (length (rows src)) (ncols src) = Some (rows src).
Proof.
  unfold broadcast_to. rewrite mapM_broadcast_row_same. simpl.
  by rewrite decide_True.
Qed.

(** Reading a row that was blank and had [s] written at offset [lo]. *)
Lemma lookup_written_row (n lo w : nat) (s : list bool) (c : nat) :
  length s = w -> (lo + w <= n)%nat ->
  (take lo (replicate n false) ++ s ++ drop (lo + w) (replicate n false)) !! c
  = if decide (lo <= c < lo + w)%nat then s !! (c - lo)%nat
    else if decide (c < n)%nat then Some false else None.
Proof.
  intros <- Hn.
  assert (Hlen : length (take lo (replicate n false)) = lo)
    by (rewrite length_take, length_replicate; lia).
  destruct (decide (lo <= c < lo + length s)%nat) as [Hin|Hout].
  - rewrite lookup_app_r by lia. rewrite Hlen.
    by rewrite lookup_app_l by lia.
  - destruct (decide (c < lo)%nat) as [Hc|Hc].
    + rewrite lookup_app_l by lia. rewrite lookup_take_lt by lia.
      rewrite decide_True by lia. apply lookup_replicate_2. lia.
    + rewrite lookup_app_r by lia. rewrite Hlen.
      rewrite lookup_app_r by lia. rewrite lookup_drop.
      destruct (decide (c < n)%nat).
      * apply lookup_replicate_2. lia.
      * apply lookup_ge_None. rewrite length_replicate. lia.
Qed.

Lemma crop_columns_inside (p : matrix) (m k : Z) :
  0 <= m -> 0 <= k -> m + k <= Z.of_nat (ncols p) ->
  crop_columns p m (m + k)
  = Matrix ((fun r => take (Z.to_nat k) (drop (Z.to_nat m) r)) <$> rows p) (Z.to_nat k).
Proof.
  intros Hm Hk Hmk. unfold crop_columns, py_slice.
  by rewrite slice_range_inside.
Qed.

Lemma reshape_flatten (mx : matrix) :
  wf_matrix mx ->
  reshape (flatten mx) (Z.of_nat (length (rows mx))) (Z.of_nat (ncols mx)) = Ok mx.
Proof.
  intros Hwf. unfold reshape, flatten.
  rewrite (length_concat_uniform (ncols mx)) by exact Hwf.
  destruct (Z.ltb_spec (Z.of_nat (length (rows mx))) 0); [lia|].
  destruct (Z.ltb_spec (Z.of_nat (ncols mx)) 0); [lia|]. simpl.
  rewrite Nat2Z.inj_mul, Z.eqb_refl, !Nat2Z.id.
  rewrite chunks_concat by exact Hwf. by destruct mx.
Qed.

Lemma zeros_of_nat (t k : nat) :
  zeros (Z.of_nat t) k = Ok (Matrix (replicate t (replicate k false)) k).
Proof.
  unfold zeros. destruct (Z.ltb_spec (Z.of_nat t) 0); [lia|]. by rewrite Nat2Z.id.
Qed.

Lemma assign_columns_inside (dst src : matrix) (m k : Z) :
  0 <= m -> 0 <= k -> m + k <= Z.of_nat (ncols dst) ->
  length (rows dst) = length (rows src) -> Z.to_nat k = ncols src ->
  assign_columns dst m (m + k) src
  = Ok (Matrix (zip_with (fun d s => take (Z.to_nat m) d ++ s ++ drop (Z.to_nat m + Z.to_nat k) d)
                         (rows dst) (rows src))
               (ncols dst)).
Proof.
  intros Hm Hk Hmk Hrows Hcols. unfold assign_columns.
  rewrite slice_range_inside by assumption.
  by rewrite Hrows, Hcols, broadcast_to_same.
Qed.

(** C1: at resolution 1, for a pianoroll (128 columns), a first key
    [m >= 0] and a key count [k >= 0] with [m + k <= 128], the constructor
    returns a NoteArray and [get_pianoroll] returns from it a matrix of the
    same shape that agrees with the pianoroll on the columns [m, m + k) and is
    false on every other column. The constructor itself checks the sum
    only; a first key or a key count below 0 passes it. *)
Theorem get_pianoroll_init_roundtrip (p : matrix) (m k : Z) :
  is_pianoroll p -> 0 <= m -> 0 <= k -> m + k <= 128 ->
  exists na decoded,
    NoteArray.init (Some p) None m k 1 = Ok na /\
    NoteArray.get_pianoroll na = Ok decoded /\
    length (rows decoded) = length (rows p) /\
    ncols decoded = ncols p /\
    forall t c,
      cell decoded t c = (fun b => if in_key_range m k c then b else false) <$> cell p t c.
Proof.
  intros [Hcols Hwf] Hm Hk Hmk.
  set (lo := Z.to_nat m). set (w := Z.to_nat k).
  set (cropped := Matrix ((fun r => take w (drop lo r)) <$> rows p) w).
  assert (Hcrop : crop_columns p m (m + k) = cropped).
  { apply crop_columns_inside; try assumption. rewrite Hcols. unfold NUM_PIANO_KEYS. lia. }
  assert (Hcwf : wf_matrix cropped).
  { unfold wf_matrix, cropped. simpl. apply Forall_fmap.
    eapply Forall_impl; [exact Hwf|]. intros r Hr. simpl.
    rewrite length_take, length_drop, Hr, Hcols. unfold NUM_PIANO_KEYS. lia. }
  set (f := fun d s : list bool => take lo d ++ s ++ drop (lo + w) d).
  exists (NoteArray.Make m k 1 (Z.of_nat (length (rows p))) (flatten cropped)),
    (Matrix (zip_with f (replicate (length (rows p)) (replicate 128 false)) (rows cropped)) 128).
  split; [|split; [|split; [|split]]].
  - unfold NoteArray.init. simpl.
    apply Z.ltb_ge in Hmk. rewrite Hmk. simpl. by rewrite Hcrop.
  - unfold NoteArray.get_pianoroll. simpl.
    replace (length (rows p)) with (length (rows cropped))
      by (unfold cropped; simpl; apply length_fmap).
    replace k with (Z.of_nat (ncols cropped)) at 1 by (unfold cropped, w; simpl; lia).
    rewrite reshape_flatten by exact Hcwf.
    unfold NUM_PIANO_KEYS. rewrite zeros_of_nat.
    rewrite assign_columns_inside; try assumption; try reflexivity.
    simpl. by rewrite length_replicate.
  - simpl. rewrite length_zip_with, length_replicate, length_fmap. lia.
  - simpl. by rewrite Hcols.
  - intros t c. unfold cell. simpl.
    rewrite lookup_zip_with, list_lookup_fmap.
    destruct (rows p !! t) as [r|] eqn:Hr; simpl.
    + assert (Hlen : length r = 128%nat).
      { transitivity (ncols p); [|exact Hcols].
        exact (proj1 (Forall_lookup _ _) Hwf t r Hr). }
      rewrite lookup_replicate_2 by (eapply lookup_lt_Some; exact Hr). simpl.
      unfold f.
      assert (Hw : length (take w (drop lo r)) = w)
        by (rewrite length_take, length_drop; lia).
      rewrite (lookup_written_row 128 lo w) by (assumption || lia).
      unfold in_key_range.
      destruct (decide (lo <= c < lo + w)%nat) as [Hin|Hout].
      * rewrite lookup_take_lt by lia. rewrite lookup_drop.
        replace (lo + (c - lo))%nat with c by lia.
        destruct (Z.leb_spec m (Z.of_nat c)); [|lia].
        destruct (Z.ltb_spec (Z.of_nat c) (m + k)); [|lia].
        simpl. by destruct (r !! c).
      * destruct (decide (c < 128)%nat) as [Hc|Hc].
        -- destruct (lookup_lt_is_Some_2 r c ltac:(lia)) as [b ->]. simpl.
           destruct (Z.leb_spec m (Z.of_nat c)); [|done].
           destruct (Z.ltb_spec (Z.of_nat c) (m + k)); [lia|done].
        -- by rewrite (lookup_ge_None_2 r c) by lia.
    + destruct (replicate _ _ !! t); done.
Qed.

End CodecFacts.

(** ** Paths and file names *)

Lemma string_app_cons (c : ascii) (a b : string) :
  String c a +:+ b = String c (a +:+ b).
Proof. reflexivity. Qed.

Lemma string_app_nil_r (a : string) : a +:+ "" = a.
Proof.
  induction a as [|c a IH]; [reflexivity|]. by rewrite string_app_cons, IH.
Qed.

Lemma string_app_assoc (a b c : string) : (a +:+ b) +:+ c = a +:+ b +:+ c.
Proof.
  induction a as [|d a IH]; [reflexivity|]. by rewrite !string_app_cons, IH.
Qed.

Lemma slash_free_app (a b : string) :
  slash_free (a +:+ b) = slash_free a && slash_free b.
Proof.
  induction a as [|c a IH]; [reflexivity|].
  rewrite string_app_cons. simpl. rewrite IH. by destruct (bool_decide _).
Qed.

Lemma slash_free_pretty_N_go (x : N) (s : string) :
  slash_free s = true -> slash_free (pretty_N_go x s) = true.
Proof.
  revert s. induction (N.lt_wf_0 x) as [x _ IH]. intros s Hs.
  destruct (decide (x = 0)%N) as [->|Hx]; [by rewrite pretty_N_go_0|].
  rewrite pretty_N_go_step by lia. apply IH.
  - apply N.div_lt; lia.
  - simpl. rewrite Hs. unfold pretty_N_char. by repeat case_match.
Qed.

Lemma slash_free_pretty (z : Z) : slash_free (pretty z) = true.
Proof.
  assert (Hpos : forall p : positive, slash_free (pretty p) = true).
  { intros p. unfold pretty, pretty_positive, pretty, pretty_N.
    case_decide; [reflexivity|]. by apply slash_free_pretty_N_go. }
  destruct z as [|p|p]; unfold pretty, pretty_Z; [reflexivity|apply Hpos|].
  rewrite slash_free_app. by rewrite Hpos.
Qed.

Lemma basename_from_slash_free (acc s : string) :
  slash_free s = true -> basename_from acc s = acc +:+ s.
Proof.
  revert acc. induction s as [|c s IH]; intros acc Hs; simpl.
  - by rewrite string_app_nil_r.
  - simpl in Hs. destruct (bool_decide (c = "/"%char)); [discriminate|].
    rewrite IH by exact Hs. by rewrite string_app_assoc.
Qed.

Lemma basename_from_after_slash (acc a b : string) :
  basename_from acc (a +:+ String "/" b) = basename b.
Proof.
  revert acc. induction a as [|c a IH]; intros acc; [reflexivity|].
  rewrite string_app_cons. simpl.
  destruct (bool_decide (c = "/"%char)); apply IH.
Qed.

Lemma ends_with_slash_inv (a : string) :
  ends_with_slash a = true -> exists a', a = a' +:+ "/".
Proof.
  induction a as [|c a IH]; [discriminate|].
  destruct a as [|d a].
  - simpl. intros Hc. apply bool_decide_eq_true in Hc as ->. by exists "".
  - intros Ha. destruct (IH Ha) as [a' Ha']. exists (String c a').
    by rewrite string_app_cons, <- Ha'.
Qed.

(** The file name of a path in the run directory is the name it was joined
    with. *)
Lemma basename_path_join (a b : string) :
  slash_free b = true -> basename (path_join a b) = b.
Proof.
  intros Hb. unfold path_join.
  destruct (starts_with_slash b) eqn:Hstart.
  { destruct b as [|c b]; [discriminate|]. simpl in *.
    by rewrite Hstart in Hb. }
  destruct (bool_decide (a = "")) eqn:Hempty; simpl.
  { apply bool_decide_eq_true in Hempty as ->.
    by apply (basename_from_slash_free ""). }
  destruct (ends_with_slash a) eqn:Hend.
  - destruct (ends_with_slash_inv a Hend) as [a' ->].
    rewrite string_app_assoc. unfold basename at 1.
    change ("/" +:+ b) with (String "/" b).
    rewrite basename_from_after_slash.
    by apply (basename_from_slash_free "").
  - unfold basename at 1. change ("/" +:+ b) with (String "/" b).
    rewrite basename_from_after_slash.
    by apply (basename_from_slash_free "").
Qed.

Lemma prefix_app (a b : string) : String.prefix a (a +:+ b) = true.
Proof.
  induction a as [|c a IH]; [by destruct b|].
  rewrite string_app_cons. simpl. by destruct (ascii_dec c c).
Qed.

Lemma index_prefixed_path (run_path : string) (index : Z) (file_base_name : string) :
  slash_free file_base_name = true ->
  index_prefixed index (path_join run_path (pretty index +:+ "_" +:+ file_base_name)) = true.
Proof.
  intros Hbase. unfold index_prefixed.
  rewrite basename_path_join.
  - rewrite <- string_app_assoc. apply prefix_app.
  - by rewrite !slash_free_app, slash_free_pretty, Hbase.
Qed.

(** ** The run *)

Section RunFacts.
Context `{Collaborators}.
Import Run.

(** *** What every method keeps: the state record, the directory, the names
    of the files written *)

Section Invariant.
Variable st0 : gmap string json.
Variable p0 : string.
Variable P : string -> Prop.
Hypothesis P_state : P (path_join p0 "state.json").
Hypothesis P_parameters : P (path_join p0 "model_parameters").
Hypothesis P_indexed : forall i file_base_name,
  st0 !! "run_index" = Some i -> slash_free file_base_name = true ->
  P (path_join p0 (get_index_prepended_file_base_name i file_base_name)).

Local Abbreviation inv := (Run.inv st0 p0 P).
Local Abbreviation triple := (Run.triple st0 p0 P).

Lemma triple_bind {A B} (m : M A) (k : A -> M B) (Q : A -> Prop) (R : B -> Prop) :
  triple m Q -> (forall a, Q a -> triple (k a) R) -> triple (bind m k) R.
Proof.
  intros Hm Hk s Hs. unfold bind.
  destruct (Hm s Hs) as [Hinv HQ].
  destruct (m s) as [[a|e] s']; simpl in *.
  - apply (Hk a); auto.
  - split; [assumption|discriminate].
Qed.

Lemma triple_weaken {A} (m : M A) (Q Q' : A -> Prop) :
  triple m Q -> (forall a, Q a -> Q' a) -> triple m Q'.
Proof. intros Hm HQ s Hs. destruct (Hm s Hs). split; auto. Qed.

Lemma triple_ret {A} (a : A) (Q : A -> Prop) : Q a -> triple (ret a) Q.
Proof. intros Ha s Hs. split; [exact Hs|]. simpl. by intros ? [= <-]. Qed.

Lemma triple_lift {A} (r : result A) : triple (lift r) (fun a => r = Ok a).
Proof. intros s Hs. split; [exact Hs|]. simpl. by intros a ->. Qed.

Lemma triple_raise {A} (e : pyerror) (Q : A -> Prop) : triple (raise e) Q.
Proof. intros s Hs. split; [exact Hs|]. simpl. discriminate. Qed.

Lemma triple_self : triple self (fun r => state r = st0 /\ path r = p0).
Proof.
  intros s Hs. split; [exact Hs|]. simpl. intros a [= <-].
  destruct Hs as (? & ? & _). by split.
Qed.

Lemma triple_get {A} (field : t -> option A) : triple (get field) (fun _ => True).
Proof.
  intros s Hs. unfold get. by destruct (field (fst s)).
Qed.

Lemma triple_update (f : t -> t) :
  (forall r, state (f r) = state r /\ path (f r) = path r) ->
  triple (update f) (fun _ => True).
Proof.
  intros Hf s (Hst & Hp & Hw). split; [|done].
  destruct (Hf (fst s)) as [Hst' Hp']. unfold inv. simpl.
  by rewrite Hst', Hp'.
Qed.

Lemma triple_path_exists (p : string) : triple (path_exists p) (fun _ => True).
Proof. by intros s Hs. Qed.

Lemma triple_read_file (p : string) : triple (read_file p) (fun _ => True).
Proof. intros s Hs. unfold read_file. by destruct (files (snd s) !! p). Qed.

Lemma triple_remove_file (p : string) : triple (remove_file p) (fun _ => True).
Proof. intros s Hs. unfold remove_file. by destruct (files (snd s) !! p). Qed.

Lemma triple_write_file (p : string) (f : file) :
  P p -> triple (write_file p f) (fun _ => True).
Proof.
  intros Hp s (Hst & Hpath & Hw). split; [|done].
  unfold inv. simpl. repeat split; try assumption.
  apply Forall_app. split; [assumption|]. by constructor.
Qed.

(** A bind whose first part only has to keep the invariant. *)
Lemma triple_seq {A B} (m : M A) (k : A -> M B) (R : B -> Prop) :
  triple m (fun _ => True) -> (forall a, triple (k a) R) -> triple (bind m k) R.
Proof. intros Hm Hk. eapply triple_bind; [exact Hm|]. intros a _. apply Hk. Qed.

Lemma triple_lift_any {A} (r : result A) : triple (lift r) (fun _ => True).
Proof. eapply triple_weaken; [apply triple_lift|done]. Qed.

Lemma triple_ret_any {A} (a : A) : triple (ret a) (fun _ => True).
Proof. by apply triple_ret. Qed.

Lemma triple_get_run_index :
  triple get_run_index (fun i => st0 !! "run_index" = Some i).
Proof.
  unfold get_run_index.
  eapply triple_bind; [apply triple_self|]. intros r [Hst _].
  eapply triple_weaken; [apply triple_lift|].
  intros i. rewrite Hst. unfold getitem. by destruct (st0 !! "run_index"); intros [= ->].
Qed.

Lemma triple_get_run_index_prefixed_path (file_base_name : string) :
  slash_free file_base_name = true ->
  triple (get_run_index_prefixed_path file_base_name) P.
Proof.
  intros Hbase. unfold get_run_index_prefixed_path.
  eapply triple_bind; [apply triple_self|]. intros r [_ Hp].
  eapply triple_bind; [apply triple_get_run_index|]. intros i Hi.
  apply triple_ret. unfold get_full_path_from_run_file_name. rewrite Hp.
  by apply P_indexed.
Qed.

Create HintDb keeps.

(** One step of a proof that a method keeps the invariant. *)
Ltac keeps :=
  lazymatch goal with
  | |- Run.triple _ _ _ (bind (get_run_index_prefixed_path _) _) _ =>
      eapply triple_bind;
      [apply triple_get_run_index_prefixed_path; reflexivity | intros ? ?]
  | |- Run.triple _ _ _ (bind self _) _ =>
      eapply triple_bind; [apply triple_self | intros ? [? ?]]
  | |- Run.triple _ _ _ (bind _ _) _ => apply triple_seq; [|intros ?]
  | |- Run.triple _ _ _ (if ?b then _ else _) _ => destruct b
  | |- Run.triple _ _ _ (match ?x with _ => _ end) _ => destruct x
  | |- Run.triple _ _ _ (update _) _ => apply triple_update; by intros []
  | |- Run.triple _ _ _ (write_file _ _) _ => apply triple_write_file; subst; auto
  | |- Run.triple _ _ _ _ _ =>
      first [ apply triple_lift_any | apply triple_ret_any | apply triple_raise
            | apply triple_get | apply triple_read_file | apply triple_remove_file
            | apply triple_path_exists
            | eapply triple_weaken; [apply triple_get_run_index | done]
            | solve [eauto with keeps] ]
  end.

Lemma triple_load_model (p : string) : triple (load_model p) (fun _ => True).
Proof. unfold load_model. repeat keeps. Qed.

Lemma triple_load_master_note_array (p : string) :
  triple (load_master_note_array p) (fun _ => True).
Proof. unfold load_master_note_array. repeat keeps. Qed.

Lemma triple_save_state : triple save_state (fun _ => True).
Proof.
  unfold save_state, save_dictionary_to_json_file, get_state_path. repeat keeps.
Qed.

Lemma triple_get_previous_run_index_prefixed_path (file_base_name : string) :
  triple (get_previous_run_index_prefixed_path file_base_name) (fun _ => True).
Proof. unfold get_previous_run_index_prefixed_path. repeat keeps. Qed.

#[local] Hint Resolve triple_load_model triple_load_master_note_array triple_save_state
  triple_get_previous_run_index_prefixed_path : keeps.

Lemma triple_fetch_data (data_description : json) :
  triple (fetch_data data_description) (fun _ => True).
Proof. unfold fetch_data. repeat keeps. Qed.

Lemma triple_fetch_model (model_description : json) :
  triple (fetch_model model_description) (fun _ => True).
Proof.
  unfold fetch_model, get_full_path_from_run_file_name. repeat keeps.
Qed.

Lemma triple_checkpoint_method (g : Generator) :
  triple (checkpoint_method g) (fun _ => True).
Proof. unfold checkpoint_method. repeat keeps. Qed.

#[local] Hint Resolve triple_fetch_data triple_fetch_model triple_checkpoint_method : keeps.

Lemma triple_fit (n batch : nat) (g : Generator) (model_save_name : string) (frequency : json) :
  P model_save_name ->
  triple (fit n batch g model_save_name frequency) (fun _ => True).
Proof.
  intros Hname. revert batch g.
  induction n as [|n IH]; intros batch g; simpl; repeat keeps.
Qed.

Lemma triple_execute (run_description : gmap string json) :
  triple (execute run_description) (fun _ => True).
Proof.
  unfold execute, save_dictionary_to_json_file. repeat keeps.
  by apply triple_fit.
Qed.

End Invariant.
(** [execute] never assigns the state record. *)
Lemma execute_state (run_description : gmap string json) (s : t * world) :
  state (fst (snd (execute run_description s))) = state (fst s).
Proof.
  destruct (triple_execute (state (fst s)) (path (fst s)) (fun _ => True)
              I I (fun _ _ _ _ => I) run_description s) as [(Hst & _) _].
  - repeat split. by apply Forall_true.
  - exact Hst.
Qed.

(** *** Construction *)

Lemma construct_unfold (run_path : string) (fs : gmap string file)
    (run_description : gmap string json) (s : t * world) :
  resume_or_start (blank run_path, World fs []) = (Ok run_description, s) ->
  construct run_path fs = execute run_description s.
Proof. intros Hstart. unfold construct, init, bind. by rewrite Hstart. Qed.

(** C2: with a run description in place, (1) a directory without a state
    record starts at run index 0 with status "running"; (2) a directory whose
    state record has run index [n] and status "running", and whose model
    description carries a model initializer, resumes at run index [n + 1]
    with status "running", the model path set to ["<n>_trained.model"] in the
    run directory and the model initializer removed. In both cases that is
    the state record once construction is over. *)
Theorem construct_run_state (run_path : string) (fs : gmap string file)
    (run_description : gmap string json) :
  fs !! path_join run_path "run_description.json" = Some (FJson run_description) ->
  (fs !! path_join run_path "state.json" = None ->
     let st := <["run_index" := JInt 0]> (<["status" := JStr "running"]> ∅) in
     resume_or_start (blank run_path, World fs [])
     = (Ok run_description, (set_state st (blank run_path), World fs [])) /\
     state (fst (snd (construct run_path fs))) = st) /\
  (forall (st md : gmap string json) (n : Z) (mi : json),
     fs !! path_join run_path "state.json" = Some (FJson st) ->
     st !! "run_index" = Some (JInt n) ->
     st !! "status" = Some (JStr "running") ->
     run_description !! "model_description" = Some (JDict md) ->
     md !! "model_initializer" = Some mi ->
     let st' := <["run_index" := JInt (n + 1)]> st in
     let md' := delete "model_initializer"
                  (<["model_path" := JStr (path_join run_path (pretty n +:+ "_trained.model"))]> md) in
     resume_or_start (blank run_path, World fs [])
     = (Ok (<["model_description" := JDict md']> run_description),
        (set_state st' (blank run_path), World fs [])) /\
     st' !! "run_index" = Some (JInt (n + 1)) /\
     st' !! "status" = Some (JStr "running") /\
     md' !! "model_path" = Some (JStr (path_join run_path (pretty n +:+ "_trained.model"))) /\
     md' !! "model_initializer" = None /\
     basename (path_join run_path (pretty n +:+ "_trained.model")) = pretty n +:+ "_trained.model" /\
     state (fst (snd (construct run_path fs))) = st').
Proof.
  intros Hrd. split.
  - intros Hnone st.
    assert (Hstart : resume_or_start (blank run_path, World fs [])
                     = (Ok run_description, (set_state st (blank run_path), World fs []))).
    { unfold resume_or_start, bind, self, load_dictionary_from_json_file, bind,
        read_file, get_run_description_path, path_exists, get_state_path. simpl.
      rewrite Hrd. simpl. rewrite Hnone. reflexivity. }
    split; [exact Hstart|].
    rewrite (construct_unfold _ _ _ _ Hstart). by rewrite execute_state.
  - intros st md n mi Hst Hidx Hstatus Hmd Hmi st' md'.
    assert (Hstart : resume_or_start (blank run_path, World fs [])
                     = (Ok (<["model_description" := JDict md']> run_description),
                        (set_state st' (blank run_path), World fs []))).
    { unfold resume_or_start, load_state, get_previous_run_index_prefixed_path,
        get_run_index, bind, self, load_dictionary_from_json_file, bind,
        read_file, get_run_description_path, path_exists, get_state_path, lift, update.
      simpl. rewrite Hrd. simpl. rewrite Hst. simpl. rewrite Hst. simpl.
      unfold getitem at 1. rewrite Hidx. simpl.
      unfold getitem at 1. rewrite lookup_insert_eq. simpl.
      unfold getitem at 1. rewrite Hmd. simpl.
      unfold delitem. rewrite lookup_insert_ne by done. rewrite Hmi.
      replace (n + 1 + -1) with n by lia. reflexivity. }
    split; [exact Hstart|].
    split; [apply lookup_insert_eq|].
    split; [unfold st'; by rewrite lookup_insert_ne|].
    split; [unfold md'; rewrite lookup_delete_ne by done; apply lookup_insert_eq|].
    split; [apply lookup_delete_eq|].
    split.
    + apply basename_path_join. by rewrite slash_free_app, slash_free_pretty.
    + rewrite (construct_unfold _ _ _ _ Hstart). by rewrite execute_state.
Qed.

(** *** File names *)

(** C4: at run index [N], the composite checkpoint writes the state record
    at [state.json], then the model at ["<N>_trained.model"], then the
    generator state at ["<N>_generator_state.gs"], the last two named with
    the prefix ["<N>_"]; and every file [execute] writes other than the log
    [output.log], whether it completes or raises, is the state record, the
    temporary [model_parameters] file, or a file named with the prefix
    ["<N>_"]. *)
Theorem written_file_names (r : t) (w : world) (N : Z) :
  state r !! "run_index" = Some (JInt N) ->
  let model_file := path_join (path r) (pretty N +:+ "_trained.model") in
  let generator_file := path_join (path r) (pretty N +:+ "_generator_state.gs") in
  (forall (g : Generator) (m : Model),
     model r = Some m ->
     checkpoint_method g (r, w)
     = (Ok tt,
        (r, World (<[generator_file := FGeneratorState (generator_state g)]>
                     (<[model_file := FModel m]>
                        (<[get_state_path r := FJson (state r)]> (files w))))
                  (written w ++ [get_state_path r; model_file; generator_file])))) /\
  index_prefixed N model_file = true /\
  index_prefixed N generator_file = true /\
  (forall (run_description : gmap string json) (f : string),
     f ∈ written (snd (snd (execute run_description (r, w)))) ->
     f ∈ written w \/ f = get_state_path r \/
     f = get_full_path_from_run_file_name r "model_parameters" \/
     index_prefixed N f = true).
Proof.
  intros Hidx model_file generator_file.
  split; [|split; [|split]].
  - intros g m Hm.
    unfold checkpoint_method, save_state, save_dictionary_to_json_file,
      get_run_index_prefixed_path, get_run_index, bind, self, get, write_file, lift.
    cbn. rewrite Hm. cbn. unfold getitem. rewrite Hidx. cbn. rewrite Hidx. cbn.
    by rewrite <- !app_assoc.
  - by apply (index_prefixed_path (path r) N "trained.model").
  - by apply (index_prefixed_path (path r) N "generator_state.gs").
  - intros run_description f.
    set (P := fun f : string =>
           f ∈ written w \/ f = get_state_path r \/
           f = get_full_path_from_run_file_name r "model_parameters" \/
           index_prefixed N f = true).
    destruct (triple_execute (state r) (path r) P) with
      (run_description := run_description) (s := (r, w)) as [(_ & _ & Hw) _].
    + right. by left.
    + right. right. by left.
    + intros i base Hi Hbase. rewrite Hidx in Hi. injection Hi as <-.
      right. right. right. by apply index_prefixed_path.
    + repeat split. apply Forall_forall. intros x Hx. by left.
    + exact (proj1 (Forall_forall _ _) Hw f).
Qed.

End RunFacts.

(** ** The sample inputs, run *)

(** C1, on an instance: the two-step sample pianoroll, keys 21 to 108. *)
Lemma get_pianoroll_init_roundtrip_witness :
  exists na decoded,
    @NoteArray.init no_stretch (Some sample_pianoroll) None 21 88 1 = Ok na /\
    @NoteArray.get_pianoroll no_stretch na = Ok decoded /\
    length (rows decoded) = length (rows sample_pianoroll) /\
    ncols decoded = ncols sample_pianoroll /\
    forall t c,
      cell decoded t c
      = (fun b => if in_key_range 21 88 c then b else false) <$> cell sample_pianoroll t c.
Proof.
  apply (@get_pianoroll_init_roundtrip no_stretch sample_pianoroll 21 88).
  - split; [reflexivity|]. repeat constructor.
  - lia.
  - lia.
  - lia.
Defined.

(** C1 without the lower bounds: the constructor accepts a first key of -5
    with 5 keys (the sum is 0), the slice [-5:0] of the columns is empty, and
    [get_pianoroll] raises when it reshapes the empty array to two rows of 5;
    and with 10 as first key and -2 keys, decoding a pianoroll of no rows
    raises as well. *)
Lemma negative_key_range_not_decoded :
  -5 + 5 <= 128 /\
  (exists na,
     @NoteArray.init no_stretch (Some sample_pianoroll) None (-5) 5 1 = Ok na /\
     @NoteArray.get_pianoroll no_stretch na = Raise ValueError) /\
  10 + -2 <= 128 /\
  (exists na,
     @NoteArray.init no_stretch (Some (Matrix [] 128)) None 10 (-2) 1 = Ok na /\
     @NoteArray.get_pianoroll no_stretch na = Raise ValueError).
Proof.
  split; [lia|]. split; [eexists; split; reflexivity|].
  split; [lia|]. eexists; split; reflexivity.
Qed.

(** C8, on an instance: a flat array of length 176 with 88 keys has two time
    steps. *)
Lemma init_flat_array_witness :
  @NoteArray.init no_stretch None (Some (replicate 176 false)) 21 88 1
  = Ok (NoteArray.Make 21 88 1 2 (replicate 176 false)).
Proof.
  apply (proj2 (proj2 (@init_flat_array no_stretch None (replicate 176 false) 21 88 1))).
  - exists 2. reflexivity.
  - lia.
  - lia.
  - discriminate.
Defined.

(** C2, on instances: the new directory starts at run index 0, the one
    stopped at run index 2 resumes at run index 3. *)
Lemma construct_run_state_witness :
  Run.state (fst (snd fresh_run))
  = <["run_index" := JInt 0]> (<["status" := JStr "running"]> ∅) /\
  Run.state (fst (snd resumed_run)) = <["run_index" := JInt (2 + 1)]> (running_state 2).
Proof.
  split.
  - refine (proj2 (proj1 (@construct_run_state toy "/runs/a" fresh_directory
                            building_description _) _)); reflexivity.
  - refine (proj2 (proj2 (proj2 (proj2 (proj2 (proj2
             (proj2 (@construct_run_state toy "/runs/a" stopped_directory
                       building_description _)
                    (running_state 2) building_model 2 sample_initializer
                    _ _ _ _ _))))))); reflexivity.
Defined.

(** C3, on an instance: the new directory's run trains through its two
    epochs and returns; its status, in memory and in the state record it
    saved, is "running", not "completed". *)
Lemma completed_run_status_running :
  fst fresh_run = Ok tt /\
  Run.state (fst (snd fresh_run)) !! "status" = Some (JStr "running") /\
  Run.files (snd (snd fresh_run)) !! "/runs/a/state.json"
  = Some (Run.FJson (running_state 0)) /\
  Run.state (fst (snd fresh_run)) !! "status" <> Some (JStr "completed").
Proof.
  assert (Hstatus : Run.state (fst (snd fresh_run)) !! "status" = Some (JStr "running"))
    by (vm_compute; reflexivity).
  split; [vm_compute; reflexivity|].
  split; [exact Hstatus|].
  split; [vm_compute; reflexivity|].
  rewrite Hstatus. discriminate.
Qed.

(** C4, on an instance: the files the checkpoint of the sample run at index 2
    names with its prefix. *)
Lemma written_file_names_witness :
  index_prefixed 2 "/runs/a/2_trained.model" = true /\
  index_prefixed 2 "/runs/a/2_generator_state.gs" = true.
Proof.
  exact (conj (proj1 (proj2 (@written_file_names toy sample_run (Run.World ∅ []) 2 eq_refl)))
              (proj1 (proj2 (proj2 (@written_file_names toy sample_run (Run.World ∅ []) 2 eq_refl))))).
Defined.

(** C4 as stated, for every file: the run resumed at index 3 writes its state
    record to [state.json], a name without the prefix ["3_"]. *)
Lemma state_record_not_index_prefixed :
  Run.state (fst (snd resumed_run)) !! "run_index" = Some (JInt 3) /\
  "/runs/a/state.json" ∈ Run.written (snd (snd resumed_run)) /\
  index_prefixed 3 "/runs/a/state.json" = false /\
  ~ Forall (fun f => index_prefixed 3 f = true) (Run.written (snd (snd resumed_run))).
Proof.
  assert (Hin : Run.written (snd (snd resumed_run)) !! 3%nat = Some "/runs/a/state.json")
    by (vm_compute; reflexivity).
  split; [vm_compute; reflexivity|].
  split; [exact (list_elem_of_lookup_2 _ _ _ Hin)|].
  split; [vm_compute; reflexivity|].
  intros Hall. by specialize (Forall_lookup_1 _ _ _ _ Hall Hin).
Qed.

(** C7: resuming a directory whose model description has no model
    initializer raises [KeyError] at the deletion, after the run index was
    incremented; no run is constructed. *)
Theorem resume_without_initializer_raises :
  fst resumed_run_without_initializer = Raise (KeyError "model_initializer").
Proof. vm_compute. reflexivity. Qed.

(** * Further properties of the codec *)

Section CodecMore.
Context `{PianorollOps}.

(** ** What the constructor lets through *)

(** A NoteArray comes out only of a call with exactly one initializer and a
    key range that ends by 128, and never of one with a resolution greater
    than 1 (the check the source makes is [resolution > 1.0]); it keeps the
    three arguments as given. *)
Theorem init_returns_checked (p : option matrix) (flat : option (list bool))
    (m k : Z) (r : Q) (na : NoteArray.t) :
  NoteArray.init p flat m k r = Ok na ->
  NoteArray.min_key_index na = m /\ NoteArray.num_keys na = k /\
  NoteArray.resolution na = r /\
  m + k <= 128 /\ ~ (1 < r)%Q /\
  (is_Some p <-> flat = None).
Proof.
  unfold NoteArray.init. intros Hinit.
  destruct (Z.ltb_spec 128 (m + k)) as [|Hrange];
    [by destruct (bool_decide (is_Some p) && _)|].
  destruct (Qle_bool r 1) eqn:Hr;
    [|by destruct (bool_decide (is_Some p) && _)].
  apply Qle_bool_iff, Qle_not_lt in Hr.
  destruct p as [p|], flat as [flat|]; simpl in Hinit; try discriminate.
  - injection Hinit as <-. repeat split; try done; by eexists.
  - destruct (k =? 0); [discriminate|]. destruct (negb _); [discriminate|].
    injection Hinit as <-. repeat split; try done; intros [? ?]; discriminate.
Qed.

(** ** Lengths *)

(** A NoteArray built from a flat array holds that array; its length in notes
    is [time_steps * num_keys] and its length in time steps is [time_steps]. *)
Theorem flat_array_lengths (flat : list bool) (m k : Z) (r : Q) (na : NoteArray.t) :
  NoteArray.init None (Some flat) m k r = Ok na ->
  NoteArray.array na = flat /\
  NoteArray.get_length_in_notes na = NoteArray.time_steps na * NoteArray.num_keys na /\
  NoteArray.get_length_in_timesteps na = Ok (NoteArray.time_steps na).
Proof.
  unfold NoteArray.init. simpl. intros Hinit.
  destruct (128 <? m + k); [discriminate|].
  destruct (negb (Qle_bool r 1)); [discriminate|].
  destruct (Z.eqb_spec k 0) as [|Hk]; [discriminate|].
  destruct (Z.eqb_spec (Z.of_nat (length flat) mod k) 0) as [Hmod|]; [|discriminate].
  simpl in Hinit. injection Hinit as <-.
  unfold NoteArray.get_length_in_timesteps, NoteArray.get_length_in_notes. simpl.
  split; [reflexivity|]. split.
  - pose proof (Z.div_mod (Z.of_nat (length flat)) k Hk). lia.
  - apply Z.eqb_neq in Hk. by rewrite Hk.
Qed.

Lemma crop_columns_wf (p : matrix) (m k : Z) :
  wf_matrix p -> 0 <= m -> 0 <= k -> m + k <= Z.of_nat (ncols p) ->
  wf_matrix (crop_columns p m (m + k)) /\
  ncols (crop_columns p m (m + k)) = Z.to_nat k /\
  length (rows (crop_columns p m (m + k))) = length (rows p).
Proof.
  intros Hwf Hm Hk Hmk. rewrite crop_columns_inside by assumption.
  split; [|split].
  - unfold wf_matrix. simpl. apply Forall_fmap.
    eapply Forall_impl; [exact Hwf|]. intros r Hr. simpl.
    rewrite length_take, length_drop, Hr. lia.
  - reflexivity.
  - simpl. apply length_fmap.
Qed.

(** A NoteArray built from a pianoroll at resolution [r <= 1], with a key
    range inside [0, 128]: its time steps are the rows of the pianoroll as
    stretched (as given when [r = 1]), its length in notes is that times
    [num_keys], and with [num_keys > 0] its length in time steps is the row
    count again. *)
Theorem pianoroll_lengths (p : matrix) (m k : Z) (r : Q) :
  let p' := if Qeq_bool r 1 then p else stretch r p in
  is_pianoroll p' -> 0 <= m -> 0 <= k -> m + k <= 128 -> (r <= 1)%Q ->
  exists na,
    NoteArray.init (Some p) None m k r = Ok na /\
    NoteArray.time_steps na = Z.of_nat (length (rows p')) /\
    NoteArray.get_length_in_notes na = Z.of_nat (length (rows p')) * k /\
    (0 < k -> NoteArray.get_length_in_timesteps na = Ok (Z.of_nat (length (rows p')))).
Proof.
  intros p' [Hcols Hwf] Hm Hk Hmk Hr.
  destruct (crop_columns_wf p' m k Hwf Hm Hk) as (Hcwf & Hccols & Hcrows).
  { rewrite Hcols. unfold NUM_PIANO_KEYS. lia. }
  exists (NoteArray.Make m k r (Z.of_nat (length (rows p')))
            (flatten (crop_columns p' m (m + k)))).
  assert (Hnotes : Z.of_nat (length (flatten (crop_columns p' m (m + k))))
                   = Z.of_nat (length (rows p')) * k).
  { unfold flatten. rewrite (length_concat_uniform _ _ Hcwf), Hccols, Hcrows. lia. }
  split; [|split; [reflexivity|split]].
  - unfold NoteArray.init. simpl.
    apply Z.ltb_ge in Hmk. rewrite Hmk.
    apply Qle_bool_iff in Hr. rewrite Hr. simpl.
    unfold p'. by destruct (Qeq_bool r 1).
  - exact Hnotes.
  - intros Hpos. unfold NoteArray.get_length_in_timesteps, NoteArray.get_length_in_notes.
    simpl. destruct (Z.eqb_spec k 0); [lia|].
    rewrite Hnotes. f_equal. apply Z.div_mul. lia.
Qed.

(** With [num_keys = 0] the two initializers part ways: a flat array is
    refused (the remainder by zero), a pianoroll is accepted and gives an
    empty array whose length in time steps cannot be asked for. *)
Theorem zero_keys (p : matrix) (flat : list bool) (m : Z) (r : Q) :
  raises (NoteArray.init None (Some flat) m 0 r) /\
  (m <= 128 -> (r <= 1)%Q ->
   exists na,
     NoteArray.init (Some p) None m 0 r = Ok na /\
     NoteArray.array na = [] /\
     NoteArray.get_length_in_notes na = 0 /\
     NoteArray.get_length_in_timesteps na = Raise ZeroDivisionError).
Proof.
  split.
  - unfold NoteArray.init, raises. simpl.
    destruct (128 <? m + 0); [eauto|]. destruct (negb _); eauto.
  - intros Hm Hr. unfold NoteArray.init. simpl.
    destruct (Z.ltb_spec 128 (m + 0)); [lia|].
    apply Qle_bool_iff in Hr. rewrite Hr. simpl.
    eexists. split; [reflexivity|].
    assert (Hempty : forall q : matrix, flatten (crop_columns q m (m + 0)) = []).
    { intros q. unfold flatten, crop_columns, py_slice, slice_range.
      rewrite Z.add_0_r, Z.sub_diag. change (Z.to_nat 0) with 0%nat. cbn [rows].
      induction (rows q) as [|x l IH]; [reflexivity|].
      rewrite fmap_cons. cbn [concat]. by rewrite IH, take_0. }
    unfold NoteArray.get_length_in_timesteps, NoteArray.get_length_in_notes. simpl.
    by rewrite Hempty.
Qed.

(** ** Decoding a flat array *)

Lemma chunks_spec {A} (t k : nat) (l : list A) :
  length l = (t * k)%nat ->
  Forall (fun r => length r = k) (chunks t k l) /\
  length (chunks t k l) = t /\
  concat (chunks t k l) = l.
Proof.
  revert l. induction t as [|t IH]; intros l Hl; simpl.
  - destruct l; [by repeat constructor|discriminate].
  - destruct (IH (drop k l)) as (Hall & Hlen & Hcat).
    { rewrite length_drop. lia. }
    split; [|split].
    + constructor; [|exact Hall]. rewrite length_take. lia.
    + by rewrite Hlen.
    + by rewrite Hcat, take_drop.
Qed.

Lemma reshape_exact (a : list bool) (t k : nat) :
  length a = (t * k)%nat ->
  reshape a (Z.of_nat t) (Z.of_nat k) = Ok (Matrix (chunks t k a) k).
Proof.
  intros Ha. unfold reshape.
  destruct (Z.ltb_spec (Z.of_nat t) 0); [lia|].
  destruct (Z.ltb_spec (Z.of_nat k) 0); [lia|]. simpl.
  destruct (Z.eqb_spec (Z.of_nat (length a)) (Z.of_nat t * Z.of_nat k)); [|lia].
  by rewrite !Nat2Z.id.
Qed.

(** Cropping the columns that were written gives back what was written. *)
Lemma crop_written_rows (lo w : nat) (zs cs : list (list bool)) :
  length zs = length cs ->
  Forall (fun d => (lo + w <= length d)%nat) zs ->
  Forall (fun c => length c = w) cs ->
  (fun r => take w (drop lo r))
    <$> zip_with (fun d s => take lo d ++ s ++ drop (lo + w) d) zs cs = cs.
Proof.
  revert cs. induction zs as [|d zs IH]; intros [|c cs] Hlen Hzs Hcs;
    try discriminate; [reflexivity|].
  inversion Hzs as [|? ? Hd Hzs']. inversion Hcs as [|? ? Hc Hcs']. subst.
  simpl. f_equal.
  - rewrite drop_app_length' by (rewrite length_take; lia).
    by rewrite take_app_length.
  - apply IH; [by injection Hlen|assumption..].
Qed.

Lemma get_pianoroll_unflattened (flat : list bool) (m k : Z) (r : Q) (t : nat) :
  0 <= m -> 0 <= k -> m + k <= 128 -> length flat = (t * Z.to_nat k)%nat ->
  NoteArray.get_pianoroll (NoteArray.Make m k r (Z.of_nat t) flat)
  = if Qeq_bool r 1 then Ok (unflattened flat m k t)
    else if Qeq_bool r 0 then Raise ZeroDivisionError
    else Ok (stretch (1 / r) (unflattened flat m k t)).
Proof.
  intros Hm Hk Hmk Hlen. unfold NoteArray.get_pianoroll. cbn [NoteArray.array
    NoteArray.time_steps NoteArray.num_keys NoteArray.min_key_index NoteArray.resolution].
  rewrite <- (Z2Nat.id k) at 1 by assumption.
  rewrite reshape_exact by assumption.
  unfold NUM_PIANO_KEYS. rewrite zeros_of_nat.
  destruct (chunks_spec t (Z.to_nat k) flat Hlen) as (_ & Hrows & _).
  rewrite assign_columns_inside; try assumption; try reflexivity.
  simpl. by rewrite length_replicate, Hrows.
Qed.

Lemma unflattened_pianoroll (flat : list bool) (m k : Z) (t : nat) :
  0 <= m -> 0 <= k -> m + k <= 128 -> length flat = (t * Z.to_nat k)%nat ->
  is_pianoroll (unflattened flat m k t) /\
  length (rows (unflattened flat m k t)) = t /\
  flatten (crop_columns (unflattened flat m k t) m (m + k)) = flat.
Proof.
  intros Hm Hk Hmk Hlen.
  destruct (chunks_spec t (Z.to_nat k) flat Hlen) as (Hall & Hrows & Hcat).
  split; [split; [reflexivity|]|split].
  - unfold wf_matrix, unflattened. cbn [rows ncols].
    apply Forall_lookup. intros i row Hrow.
    apply lookup_zip_with_Some in Hrow as (d & c & -> & Hd & Hc).
    apply lookup_replicate in Hd as [-> _].
    pose proof (proj1 (Forall_lookup _ _) Hall i c Hc) as Hlc. simpl in Hlc.
    rewrite !length_app, length_take, length_drop, length_replicate, Hlc. lia.
  - unfold unflattened. cbn [rows].
    rewrite length_zip_with, length_replicate, Hrows. lia.
  - rewrite crop_columns_inside by (assumption || (cbn; lia)).
    unfold flatten, unflattened. cbn [rows].
    rewrite crop_written_rows; [exact Hcat| |  |exact Hall].
    + by rewrite length_replicate, Hrows.
    + apply Forall_replicate. rewrite length_replicate. lia.
Qed.

Lemma init_flat_array_value (flat : list bool) (m k : Z) (r : Q) (na : NoteArray.t) :
  0 < k -> NoteArray.init None (Some flat) m k r = Ok na ->
  exists t : nat,
    na = NoteArray.Make m k r (Z.of_nat t) flat /\
    length flat = (t * Z.to_nat k)%nat /\ m + k <= 128 /\ (r <= 1)%Q.
Proof.
  intros Hk Hinit.
  unfold NoteArray.init in Hinit. simpl in Hinit.
  destruct (Z.ltb_spec 128 (m + k)) as [|Hmk]; [discriminate|].
  destruct (Qle_bool r 1) eqn:Hr; [|discriminate].
  apply Qle_bool_iff in Hr. simpl in Hinit.
  destruct (k =? 0); [discriminate|].
  destruct (Z.eqb_spec (Z.of_nat (length flat) mod k) 0) as [Hmod|]; [|discriminate].
  simpl in Hinit. injection Hinit as <-.
  exists (Z.to_nat (Z.of_nat (length flat) / k)).
  assert (0 <= Z.of_nat (length flat) / k) by (apply Z.div_pos; lia).
  pose proof (Z.div_mod (Z.of_nat (length flat)) k ltac:(lia)).
  repeat split; try assumption.
  - f_equal. lia.
  - nia.
Qed.

(** Decoding a NoteArray that was built from a flat array (resolution 1, key
    range inside [0, 128], at least one key) gives a pianoroll of
    [time_steps] rows, and encoding that pianoroll with the same key range
    gives the NoteArray back. *)
Theorem flat_array_roundtrip (flat : list bool) (m k : Z) (na : NoteArray.t) :
  0 <= m -> 0 < k ->
  NoteArray.init None (Some flat) m k 1 = Ok na ->
  exists p,
    NoteArray.get_pianoroll na = Ok p /\
    is_pianoroll p /\
    Z.of_nat (length (rows p)) = NoteArray.time_steps na /\
    NoteArray.init (Some p) None m k 1 = Ok na.
Proof.
  intros Hm Hk Hinit.
  destruct (init_flat_array_value _ _ _ _ _ Hk Hinit) as (t & -> & Hlen & Hmk & _).
  destruct (unflattened_pianoroll flat m k t) as (Hp & Hrows & Hflat);
    try assumption; try lia.
  exists (unflattened flat m k t).
  split; [|split; [exact Hp|split]].
  - by rewrite get_pianoroll_unflattened by (assumption || lia).
  - cbn [NoteArray.time_steps]. by rewrite Hrows.
  - unfold NoteArray.init. apply Z.ltb_ge in Hmk.
    cbn -[unflattened flatten crop_columns Z.add Z.ltb]. rewrite Hmk.
    change (Qle_bool 1 1) with true. change (Qeq_bool 1 1) with true.
    cbn [negb]. by rewrite Hflat, Hrows.
Qed.

(** Decoding at another resolution: for a NoteArray built from a flat array
    (key range inside [0, 128], at least one key) with resolution [r],
    [get_pianoroll] raises [ZeroDivisionError] when [r] is 0 and otherwise
    returns the full-resolution matrix stretched by [1 / r]. *)
Theorem get_pianoroll_resolution (flat : list bool) (m k : Z) (r : Q) (na : NoteArray.t) :
  0 <= m -> 0 < k ->
  NoteArray.init None (Some flat) m k r = Ok na ->
  exists low,
    NoteArray.get_pianoroll
      (NoteArray.Make m k 1 (NoteArray.time_steps na) (NoteArray.array na)) = Ok low /\
    is_pianoroll low /\
    NoteArray.get_pianoroll na
    = if Qeq_bool r 1 then Ok low
      else if Qeq_bool r 0 then Raise ZeroDivisionError
      else Ok (stretch (1 / r) low).
Proof.
  intros Hm Hk Hinit.
  destruct (init_flat_array_value _ _ _ _ _ Hk Hinit) as (t & -> & Hlen & Hmk & _).
  destruct (unflattened_pianoroll flat m k t) as (Hp & _);
    try assumption; try lia.
  exists (unflattened flat m k t). simpl.
  split; [|split; [exact Hp|]].
  - by rewrite get_pianoroll_unflattened by (assumption || lia).
  - by rewrite get_pianoroll_unflattened by (assumption || lia).
Qed.

End CodecMore.

(** * Further properties of the run *)

(** ** Names in the run directory *)

Lemma last_char_app (a b : string) :
  b <> "" -> last_char (a +:+ b) = last_char b.
Proof.
  intros Hb. induction a as [|c a IH]; [reflexivity|].
  rewrite string_app_cons. simpl. rewrite IH.
  destruct (a +:+ b) eqn:Hab; [|reflexivity].
  destruct a; [|discriminate]. by destruct b.
Qed.

Lemma path_join_ne (p a b : string) :
  slash_free a = true -> slash_free b = true -> a <> b ->
  path_join p a <> path_join p b.
Proof.
  intros Ha Hb Hne Heq. apply Hne.
  by rewrite <- (basename_path_join p a), <- (basename_path_join p b), Heq.
Qed.

Lemma string_length_app (a b : string) :
  String.length (a +:+ b) = (String.length a + String.length b)%nat.
Proof.
  induction a as [|c a IH]; [reflexivity|].
  rewrite string_app_cons. simpl. by rewrite IH.
Qed.

Lemma string_app_inv_r (a b s : string) : a +:+ s = b +:+ s -> a = b.
Proof.
  revert b. induction a as [|c a IH]; intros [|d b] Heq.
  - reflexivity.
  - apply (f_equal String.length) in Heq. change ("" +:+ s) with s in Heq.
    rewrite string_app_cons in Heq. simpl in Heq.
    rewrite string_length_app in Heq. lia.
  - apply (f_equal String.length) in Heq. change ("" +:+ s) with s in Heq.
    rewrite string_app_cons in Heq. simpl in Heq.
    rewrite string_length_app in Heq. lia.
  - rewrite !string_app_cons in Heq. injection Heq as -> Heq.
    by rewrite (IH b Heq).
Qed.

Lemma slash_free_prepended (n : Z) (file_base_name : string) :
  slash_free file_base_name = true ->
  slash_free (pretty n +:+ "_" +:+ file_base_name) = true.
Proof. intros Hbase. by rewrite !slash_free_app, slash_free_pretty, Hbase. Qed.

Lemma prepended_ne (n : Z) (file_base_name name : string) :
  file_base_name <> "" -> last_char file_base_name <> last_char name ->
  pretty n +:+ "_" +:+ file_base_name <> name.
Proof.
  intros Hbase Hlast Heq. apply Hlast. rewrite <- Heq.
  rewrite last_char_app by (by destruct file_base_name).
  by rewrite (last_char_app "_").
Qed.

Section RunMore.
Context `{Collaborators}.
Import Run.

(** Two run indices never share a file: the same base name prefixed with
    different indices gives different paths in the run directory, and a run
    resumed at index [n + 1] finds as its predecessor's file the very path a
    run at index [n] writes. *)
Theorem indexed_paths (r r' : t) (w w' : world) (n n' : Z) (file_base_name : string) :
  slash_free file_base_name = true ->
  path r' = path r ->
  state r !! "run_index" = Some (JInt n) ->
  state r' !! "run_index" = Some (JInt n') ->
  exists p p',
    fst (get_run_index_prefixed_path file_base_name (r, w)) = Ok p /\
    fst (get_run_index_prefixed_path file_base_name (r', w')) = Ok p' /\
    basename p = pretty n +:+ "_" +:+ file_base_name /\
    (n <> n' -> p <> p') /\
    (n' = n + 1 ->
     fst (get_previous_run_index_prefixed_path file_base_name (r', w')) = Ok p).
Proof.
  intros Hbase Hpath Hn Hn'.
  exists (path_join (path r) (pretty n +:+ "_" +:+ file_base_name)),
         (path_join (path r) (pretty n' +:+ "_" +:+ file_base_name)).
  unfold get_run_index_prefixed_path, get_previous_run_index_prefixed_path,
    get_run_index, get_full_path_from_run_file_name, bind, self, lift, getitem. cbn.
  rewrite Hn, Hn'. cbn. rewrite !Hpath.
  split; [reflexivity|]. split; [reflexivity|]. split; [|split].
  - apply basename_path_join. by apply slash_free_prepended.
  - intros Hne. apply path_join_ne; try by apply slash_free_prepended.
    intros Heq. apply Hne.
    apply (string_app_inv_r _ _ ("_" +:+ file_base_name)) in Heq.
    by apply (inj pretty) in Heq.
  - intros ->. by replace (n + 1 + -1) with n by lia.
Qed.

(** The state record survives on disk: after [save_state], a run on the same
    directory that calls [load_state] has the saved record as its state; in a
    directory without [state.json], [load_state] raises and changes
    nothing. *)
Theorem save_state_load_state (r r' : t) (w : world) :
  path r' = path r ->
  exists w',
    save_state (r, w) = (Ok tt, (r, w')) /\
    load_state (r', w') = (Ok tt, (set_state (state r) r', w')) /\
    (files w !! get_state_path r = None ->
     load_state (r', w) = (Raise (FileNotFoundError (get_state_path r)), (r', w))).
Proof.
  intros Hpath. eexists. split; [reflexivity|].
  unfold load_state, load_dictionary_from_json_file, read_file, bind, self,
    get_state_path, update. cbn. rewrite Hpath.
  split.
  - by rewrite lookup_insert_eq.
  - intros Hnone. unfold get_state_path in Hnone. by rewrite Hnone.
Qed.

(** ** Where the model comes from *)

(** A model path that is not empty wins: the model is loaded from it and
    becomes the run's model, the model creator is not run and, the log
    aside, no file is written (no [model_parameters], no initial model),
    whether or not the description also has a model initializer. *)
Theorem fetch_model_prefers_path (md : gmap string json) (p : string) (m : Model) (k : Z)
    (r : t) (w : world) :
  md !! "model_path" = Some (JStr p) -> p <> "" ->
  files w !! p = Some (FModel m) ->
  num_keys r = Some k -> k <> 0 ->
  fetch_model (JDict md) (r, w) = (Ok tt, (set_model m r, w)).
Proof.
  intros Hpath Hp Hfile Hkeys Hk.
  unfold fetch_model, load_model, read_file, bind, lift, getitem, get, update. cbn.
  rewrite Hpath. cbn. rewrite bool_decide_eq_false_2 by exact Hp. cbn.
  rewrite Hfile. cbn. rewrite Hkeys.
  apply Z.eqb_neq in Hk. by rewrite Hk.
Qed.

(** Without a model path key the description is refused with [KeyError];
    with an empty model path and no model initializer, with the "No method
    of creating or loading the model" exception. Neither touches the run
    or, the log aside, a file. *)
Theorem fetch_model_no_source (md : gmap string json) (r : t) (w : world) :
  (md !! "model_path" = None ->
   fetch_model (JDict md) (r, w) = (Raise (KeyError "model_path"), (r, w))) /\
  (md !! "model_path" = Some (JStr "") -> md !! "model_initializer" = None ->
   fetch_model (JDict md) (r, w) = (Raise NoModelSource, (r, w))).
Proof.
  split.
  - intros Hnone. unfold fetch_model, bind, lift, getitem. cbn. by rewrite Hnone.
  - intros Hpath Hinit. unfold fetch_model, bind, lift, getitem. cbn.
    rewrite Hpath. cbn. rewrite Hinit. cbn.
    by rewrite bool_decide_eq_true_2 by reflexivity.
Qed.

(** Building a model (empty model path, a model initializer with a path and
    parameters) at run index [N]: the parameters go to [model_parameters];
    if the creator fails the call raises and that file stays behind; if it
    succeeds the model is at ["<N>_initial.model"], becomes the run's model,
    and [model_parameters] is gone. *)
Theorem fetch_model_builds (md mi : gmap string json) (creator : string) (params : json)
    (N k : Z) (r : t) (w : world) :
  md !! "model_path" = Some (JStr "") ->
  md !! "model_initializer" = Some (JDict mi) ->
  mi !! "path" = Some (JStr creator) ->
  mi !! "params" = Some params ->
  state r !! "run_index" = Some (JInt N) ->
  num_keys r = Some k -> k <> 0 ->
  let parameters_file := path_join (path r) "model_parameters" in
  let model_file := path_join (path r) (pretty N +:+ "_initial.model") in
  let written_parameters := <[parameters_file := FPickle params]> (files w) in
  match create_model creator params with
  | None =>
      fetch_model (JDict md) (r, w)
      = (Raise CalledProcessError,
         (r, World written_parameters (written w ++ [parameters_file])))
  | Some m =>
      let fs := delete parameters_file (<[model_file := FModel m]> written_parameters) in
      fetch_model (JDict md) (r, w)
      = (Ok tt, (set_model m r, World fs (written w ++ [parameters_file; model_file]))) /\
      fs !! parameters_file = None /\
      fs !! model_file = Some (FModel m)
  end.
Proof.
  intros Hpath Hinit Hcreator Hparams Hidx Hkeys Hk parameters_file model_file
    written_parameters.
  assert (Hne : parameters_file <> model_file).
  { apply path_join_ne; [reflexivity|by apply (slash_free_prepended N "initial.model")|].
    intros Heq. symmetry in Heq. by apply (prepended_ne N "initial.model") in Heq. }
  apply Z.eqb_neq in Hk.
  unfold fetch_model, get_run_index_prefixed_path, get_run_index,
    get_full_path_from_run_file_name, load_model, read_file, write_file, remove_file,
    bind, self, lift, getitem, get, update. simpl; cbn [fst snd].
  rewrite Hpath. simpl; cbn [fst snd]. rewrite Hinit. simpl; cbn [fst snd]. rewrite Hcreator. simpl; cbn [fst snd]. rewrite Hparams. simpl; cbn [fst snd].
  rewrite ?bool_decide_eq_true_2 by reflexivity. simpl; cbn [fst snd].
  rewrite Hidx. simpl; cbn [fst snd].
  fold parameters_file.
  change (path_join (path r) (get_index_prepended_file_base_name (JInt N) "initial.model"))
    with model_file.
  destruct (create_model creator params) as [m|]; simpl; cbn [fst snd]; [|reflexivity].
  split; [|split; [apply lookup_delete_eq|]].
  - rewrite lookup_insert_ne by congruence. unfold written_parameters.
    rewrite lookup_insert_eq. simpl; cbn [fst snd].
    rewrite lookup_delete_ne by exact Hne. rewrite lookup_insert_eq. simpl; cbn [fst snd].
    by rewrite Hkeys, Hk, <- app_assoc.
  - rewrite lookup_delete_ne by exact Hne. apply lookup_insert_eq.
Qed.

(** ** Where the data comes from *)

(** [fetch_data] takes the key count from the training master note array
    alone (the validation array's own key count is not looked at); when the
    validation file is missing it raises with the training data already
    set. *)
Theorem fetch_data_loads (dd : gmap string json) (p q : string) (a : MasterNoteArray)
    (r : t) (w : world) :
  dd !! "training_master_note_array_path" = Some (JStr p) ->
  dd !! "validation_master_note_array_path" = Some (JStr q) ->
  files w !! p = Some (FMasterNoteArray a) ->
  (forall b : MasterNoteArray,
     files w !! q = Some (FMasterNoteArray b) ->
     fetch_data (JDict dd) (r, w)
     = (Ok tt,
        (Make (path r) (state r) (model r) (Some (transformer_num_keys a)) (Some a) (Some b),
         w))) /\
  (files w !! q = None ->
   fetch_data (JDict dd) (r, w)
   = (Raise (FileNotFoundError q),
      (Make (path r) (state r) (model r) (Some (transformer_num_keys a)) (Some a)
            (validation_master_note_array r),
       w))).
Proof.
  intros Hp Hq Ha.
  unfold fetch_data, load_master_note_array, read_file, bind, lift, getitem, update.
  cbn. rewrite Hp. cbn. rewrite Ha. cbn. rewrite Hq. cbn.
  split.
  - intros b Hb. by rewrite Hb.
  - intros Hnone. by rewrite Hnone.
Qed.

(** ** From a checkpoint to the next run *)

Lemma checkpoint_method_run (g : Generator) (m : Model) (N : Z) (r : t) (w : world) :
  state r !! "run_index" = Some (JInt N) -> model r = Some m ->
  checkpoint_method g (r, w)
  = (Ok tt,
     (r, World (<[path_join (path r) (pretty N +:+ "_generator_state.gs")
                  := FGeneratorState (generator_state g)]>
                  (<[path_join (path r) (pretty N +:+ "_trained.model") := FModel m]>
                     (<[get_state_path r := FJson (state r)]> (files w))))
               (written w ++ [get_state_path r;
                              path_join (path r) (pretty N +:+ "_trained.model");
                              path_join (path r) (pretty N +:+ "_generator_state.gs")]))).
Proof.
  intros Hidx Hm.
  unfold checkpoint_method, save_state, save_dictionary_to_json_file,
    get_run_index_prefixed_path, get_run_index, bind, self, get, write_file, lift.
  cbn. rewrite Hm. cbn. unfold getitem. rewrite Hidx. cbn. rewrite Hidx. cbn.
  by rewrite <- !app_assoc.
Qed.

Lemma resume_or_start_resumes (run_path : string) (fs : gmap string file)
    (run_description st md : gmap string json) (i i' : json) (mi : json) :
  fs !! path_join run_path "run_description.json" = Some (FJson run_description) ->
  fs !! path_join run_path "state.json" = Some (FJson st) ->
  st !! "run_index" = Some i -> py_add i 1 = Ok i' ->
  run_description !! "model_description" = Some (JDict md) ->
  md !! "model_initializer" = Some mi ->
  exists previous,
    py_add i' (-1) = Ok previous /\
    resume_or_start (blank run_path, World fs [])
    = (Ok (<["model_description" :=
              JDict (delete "model_initializer"
                       (<["model_path" :=
                          JStr (path_join run_path
                                  (get_index_prepended_file_base_name previous
                                     "trained.model"))]> md))]> run_description),
       (set_state (<["run_index" := i']> st) (blank run_path), World fs [])).
Proof.
  intros Hrd Hst Hidx Hadd Hmd Hmi.
  assert (Hprev : exists previous, py_add i' (-1) = Ok previous).
  { destruct i; try discriminate; injection Hadd as <-; simpl; eauto. }
  destruct Hprev as [previous Hprev]. exists previous. split; [exact Hprev|].
  unfold resume_or_start, load_state, get_previous_run_index_prefixed_path,
    get_run_index, bind, self, load_dictionary_from_json_file, bind,
    read_file, get_run_description_path, path_exists, get_state_path, lift, update.
  simpl. rewrite Hrd. simpl. rewrite Hst. simpl. rewrite Hst. simpl.
  unfold getitem at 1. rewrite Hidx. simpl. rewrite Hadd. simpl.
  unfold getitem at 1. rewrite lookup_insert_eq. simpl. rewrite Hprev. simpl.
  unfold getitem at 1. rewrite Hmd. simpl.
  unfold delitem. rewrite lookup_insert_ne by done. by rewrite Hmi.
Qed.

(** A run that has made its composite checkpoint at index [N] can be taken up
    again: a new Run on the same directory (its run description carrying a
    model initializer) resumes at index [N + 1], its model path names the
    file that holds the checkpointed model, and the generator state it will
    look for is the checkpointed one. *)
Theorem resume_after_checkpoint (r : t) (w : world) (g : Generator) (m : Model) (N : Z)
    (run_description md : gmap string json) (mi : json) :
  state r !! "run_index" = Some (JInt N) -> model r = Some m ->
  files w !! get_run_description_path r = Some (FJson run_description) ->
  run_description !! "model_description" = Some (JDict md) ->
  md !! "model_initializer" = Some mi ->
  exists (w' : world) (r' : t) (run_description' md' : gmap string json) (p q : string),
    checkpoint_method g (r, w) = (Ok tt, (r, w')) /\
    resume_or_start (blank (path r), World (files w') [])
    = (Ok run_description', (r', World (files w') [])) /\
    state r' = <["run_index" := JInt (N + 1)]> (state r) /\
    run_description' !! "model_description" = Some (JDict md') /\
    md' !! "model_path" = Some (JStr p) /\
    md' !! "model_initializer" = None /\
    files w' !! p = Some (FModel m) /\
    fst (get_previous_run_index_prefixed_path "generator_state.gs" (r', w')) = Ok q /\
    files w' !! q = Some (FGeneratorState (generator_state g)).
Proof.
  intros Hidx Hm Hrd Hmd Hmi.
  set (state_file := path_join (path r) "state.json").
  set (model_file := path_join (path r) (pretty N +:+ "_trained.model")).
  set (generator_file := path_join (path r) (pretty N +:+ "_generator_state.gs")).
  set (fs' := <[generator_file := FGeneratorState (generator_state g)]>
                (<[model_file := FModel m]>
                   (<[state_file := FJson (state r)]> (files w)))).
  assert (Hmg : model_file <> generator_file).
  { apply path_join_ne; try by apply slash_free_prepended.
    intros Heq. by apply (inj (String.app (pretty N))) in Heq. }
  assert (Hsm : state_file <> model_file).
  { apply path_join_ne; [reflexivity|by apply slash_free_prepended|].
    intros Heq. symmetry in Heq. by apply (prepended_ne N "trained.model") in Heq. }
  assert (Hsg : state_file <> generator_file).
  { apply path_join_ne; [reflexivity|by apply slash_free_prepended|].
    intros Heq. symmetry in Heq. by apply (prepended_ne N "generator_state.gs") in Heq. }
  assert (Hdm : get_run_description_path r <> model_file).
  { apply path_join_ne; [reflexivity|by apply slash_free_prepended|].
    intros Heq. symmetry in Heq. by apply (prepended_ne N "trained.model") in Heq. }
  assert (Hdg : get_run_description_path r <> generator_file).
  { apply path_join_ne; [reflexivity|by apply slash_free_prepended|].
    intros Heq. symmetry in Heq. by apply (prepended_ne N "generator_state.gs") in Heq. }
  assert (Hds : get_run_description_path r <> state_file).
  { by apply path_join_ne. }
  destruct (resume_or_start_resumes (path r) fs' run_description (state r) md
              (JInt N) (JInt (N + 1)) mi) as (previous & Hprev & Hresume);
    try assumption; try reflexivity.
  { unfold fs'. fold (get_run_description_path r).
    rewrite !lookup_insert_ne by congruence. exact Hrd. }
  { unfold fs'. fold state_file.
    rewrite !lookup_insert_ne by congruence. apply lookup_insert_eq. }
  simpl in Hprev. injection Hprev as <-.
  replace (N + 1 + -1) with N in Hresume by lia.
  exists (World fs' (written w ++ [state_file; model_file; generator_file])).
  eexists _, _, _, model_file, generator_file.
  split; [by apply checkpoint_method_run|].
  split; [exact Hresume|].
  split; [reflexivity|].
  split; [apply lookup_insert_eq|].
  split; [rewrite lookup_delete_ne by done; apply lookup_insert_eq|].
  split; [apply lookup_delete_eq|].
  split.
  { cbn [files]. unfold fs'. rewrite lookup_insert_ne by congruence. apply lookup_insert_eq. }
  split.
  - unfold get_previous_run_index_prefixed_path, get_run_index, bind, self, lift, getitem.
    cbn. rewrite lookup_insert_eq. cbn. by replace (N + 1 + -1) with N by lia.
  - cbn [files]. apply lookup_insert_eq.
Qed.

(** ** The model file during training *)

Lemma fit_step (n batch : nat) (g : Generator) (name : string) (frequency : json)
    (r : t) (w : world) :
  fit (S n) batch g name frequency (r, w)
  = match model r with
    | None => (Raise AttributeError, (r, w))
    | Some m =>
        match train_on_batch m g with
        | None => (Raise TrainingError, (r, w))
        | Some (m', g') =>
            let s1 := (set_model m' r,
                       World (<[name := FModel m']> (files w)) (written w ++ [name])) in
            match (if checkpoint_due frequency (S batch)
                   then checkpoint_method g' s1 else (Ok tt, s1)) with
            | (Ok _, s2) => fit n (S batch) g' name frequency s2
            | (Raise e, s2) => (Raise e, s2)
            end
        end
    end.
Proof.
  cbn [fit]. unfold bind at 1, get. cbn [fst snd].
  destruct (model r) as [m|]; [|reflexivity].
  destruct (train_on_batch m g) as [[m' g']|]; [|reflexivity].
  unfold bind, update, write_file. cbn [fst snd files written].
  by destruct (checkpoint_due frequency (S batch)).
Qed.

Lemma fit_snapshot (n batch : nat) (g : Generator) (frequency : json) (r0 : t) (N : Z)
    (s : t * world) :
  state r0 !! "run_index" = Some (JInt N) ->
  state (fst s) = state r0 -> path (fst s) = path r0 ->
  let name := path_join (path r0) (pretty N +:+ "_trained.model") in
  let snapshot (s : t * world) :=
    exists m, model (fst s) = Some m /\ files (snd s) !! name = Some (FModel m) in
  snapshot s \/ (n <> 0%nat /\ fst (fit n batch g name frequency s) = Ok tt) ->
  snapshot (snd (fit n batch g name frequency s)).
Proof.
  intros Hidx. revert batch g s.
  induction n as [|n IH]; intros batch g [r w] Hst Hpath name snapshot Hstart;
    cbn [fst snd] in Hst, Hpath.
  { destruct Hstart as [Hsnap|[Hn _]]; [exact Hsnap|done]. }
  assert (Hmg : path_join (path r0) (pretty N +:+ "_generator_state.gs") <> name).
  { apply path_join_ne; try by apply slash_free_prepended.
    intros Heq. by apply (inj (String.app (pretty N))) in Heq. }
  rewrite fit_step in *.
  destruct (model r) as [m0|] eqn:Hm0.
  2: { destruct Hstart as [(m & Hm & _)|[_ Hok]]; cbn [fst snd] in *; congruence. }
  destruct (train_on_batch m0 g) as [[m' g']|].
  2: { destruct Hstart as [Hsnap|[_ Hok]]; [exact Hsnap|discriminate]. }
  cbv zeta in *.
  assert (Hnext : forall s2 : t * world,
            state (fst s2) = state r0 -> path (fst s2) = path r0 ->
            model (fst s2) = Some m' -> files (snd s2) !! name = Some (FModel m') ->
            snapshot (snd (fit n (S batch) g' name frequency s2))).
  { intros s2 Hst2 Hpath2 Hm2 Hfile2. apply IH; try assumption.
    left. by exists m'. }
  destruct (checkpoint_due frequency (S batch)).
  - rewrite (checkpoint_method_run g' m' N (set_model m' r));
      [|cbn [set_model state]; by rewrite Hst|reflexivity].
    apply Hnext; cbn [fst snd files]; try assumption; try reflexivity.
    cbn [set_model path]. rewrite Hpath.
    rewrite lookup_insert_ne by exact Hmg. apply lookup_insert_eq.
  - apply Hnext; cbn [fst snd files]; try assumption; try reflexivity.
    apply lookup_insert_eq.
Qed.

(** When the training loop returns after at least one batch, the file
    ["<N>_trained.model"] of the run directory holds the model the run ends
    with: the per-batch save and the checkpoint both write the current
    model there, and nothing else is written under that name. *)
Theorem fit_saves_current_model (n batch : nat) (g : Generator) (frequency : json)
    (r : t) (w : world) (N : Z) :
  state r !! "run_index" = Some (JInt N) -> n <> 0%nat ->
  fst (fit n batch g (path_join (path r) (pretty N +:+ "_trained.model")) frequency (r, w))
  = Ok tt ->
  exists m,
    model (fst (snd (fit n batch g (path_join (path r) (pretty N +:+ "_trained.model"))
                       frequency (r, w)))) = Some m /\
    files (snd (snd (fit n batch g (path_join (path r) (pretty N +:+ "_trained.model"))
                       frequency (r, w))))
      !! path_join (path r) (pretty N +:+ "_trained.model") = Some (FModel m).
Proof.
  intros Hidx Hn Hok.
  apply (fit_snapshot n batch g frequency r N (r, w) Hidx eq_refl eq_refl).
  right. by split.
Qed.

(** ** How construction and [execute] fail *)

(** Construction stops at the first thing it misses: without
    [run_description.json] it raises [FileNotFoundError] and has set nothing;
    with a state record that has no run index it raises [KeyError] with the
    record loaded; with a run description that has no model description, or
    a model description that has no model initializer, it raises [KeyError]
    with the run index already incremented. The log aside, no file is
    written in any of these cases. *)
Theorem construct_failures (run_path : string) (fs : gmap string file) :
  let rd_file := path_join run_path "run_description.json" in
  let state_file := path_join run_path "state.json" in
  (fs !! rd_file = None ->
   construct run_path fs
   = (Raise (FileNotFoundError rd_file), (blank run_path, World fs []))) /\
  (forall rd st : gmap string json,
     fs !! rd_file = Some (FJson rd) -> fs !! state_file = Some (FJson st) ->
     (st !! "run_index" = None ->
      construct run_path fs
      = (Raise (KeyError "run_index"), (set_state st (blank run_path), World fs []))) /\
     (forall n : Z,
        st !! "run_index" = Some (JInt n) ->
        let resumed := set_state (<["run_index" := JInt (n + 1)]> st) (blank run_path) in
        (rd !! "model_description" = None ->
         construct run_path fs
         = (Raise (KeyError "model_description"), (resumed, World fs []))) /\
        (forall md : gmap string json,
           rd !! "model_description" = Some (JDict md) ->
           md !! "model_initializer" = None ->
           construct run_path fs
           = (Raise (KeyError "model_initializer"), (resumed, World fs []))))).
Proof.
  intros rd_file state_file. subst rd_file state_file.
  unfold construct, init, resume_or_start, load_state, get_previous_run_index_prefixed_path,
    get_run_index, bind, self, load_dictionary_from_json_file, bind,
    read_file, get_run_description_path, path_exists, get_state_path, lift, update.
  simpl.
  split.
  - intros Hnone. by rewrite Hnone.
  - intros rd st Hrd Hst. rewrite Hrd. simpl. rewrite Hst. simpl. rewrite Hst. simpl.
    split.
    + intros Hidx. unfold getitem at 1. by rewrite Hidx.
    + intros n Hidx.
      split; [intros Hmd|intros md Hmd Hmi];
        unfold getitem; rewrite Hidx; simpl; rewrite lookup_insert_eq; simpl;
        rewrite Hmd; simpl; [reflexivity|].
      unfold delitem. rewrite lookup_insert_ne by done. by rewrite Hmi.
Qed.

(** [execute] copies the run description into the run directory before it
    reads any of it: with no data description it raises [KeyError], and the
    copy ["<N>_run_desciption.json"] is, the log aside, the one file it has
    written. *)
Theorem execute_without_data_description (rd : gmap string json) (r : t) (w : world) (N : Z) :
  state r !! "run_index" = Some (JInt N) ->
  rd !! "data_description" = None ->
  let copy := path_join (path r) (pretty N +:+ "_run_desciption.json") in
  execute rd (r, w)
  = (Raise (KeyError "data_description"),
     (r, World (<[copy := FJson rd]> (files w)) (written w ++ [copy]))).
Proof.
  intros Hidx Hnone copy.
  unfold execute, save_dictionary_to_json_file, get_run_index_prefixed_path, get_run_index,
    write_file, bind, self, lift. cbn.
  unfold getitem at 1. rewrite Hidx. cbn.
  unfold getitem at 1. by rewrite Hnone.
Qed.

End RunMore.

(** ** The state record on disk *)

Lemma prepended_ne_state (n : Z) (file_base_name : string) :
  (10 <= String.length file_base_name)%nat ->
  pretty n +:+ "_" +:+ file_base_name <> "state.json".
Proof.
  intros Hlen Heq. apply (f_equal String.length) in Heq.
  rewrite !string_length_app in Heq. simpl in Heq. lia.
Qed.

Section StateRecord.
Context `{Collaborators}.
Import Run.

Variable st0 : gmap string json.
Variable p0 : string.
Variable f0 : option file.
Variable N : Z.
Hypothesis run_index_N : st0 !! "run_index" = Some (JInt N).

Local Abbreviation kept := (Run.record_kept st0 p0 f0).
Local Abbreviation keeps := (Run.keeps_record st0 p0 f0).
Local Abbreviation state_file := (path_join p0 "state.json").

Lemma keeps_bind {A B} (m : M A) (k : A -> M B) (Q : A -> Prop) (R : B -> Prop) :
  keeps m Q -> (forall a, Q a -> keeps (k a) R) -> keeps (bind m k) R.
Proof.
  intros Hm Hk s Hs. unfold bind.
  destruct (Hm s Hs) as [Hkept HQ].
  destruct (m s) as [[a|e] s']; simpl in *.
  - apply (Hk a); auto.
  - split; [assumption|discriminate].
Qed.

Lemma keeps_seq {A B} (m : M A) (k : A -> M B) (R : B -> Prop) :
  keeps m (fun _ => True) -> (forall a, keeps (k a) R) -> keeps (bind m k) R.
Proof. intros Hm Hk. eapply keeps_bind; [exact Hm|]. intros a _. apply Hk. Qed.

Lemma keeps_weaken {A} (m : M A) (Q Q' : A -> Prop) :
  keeps m Q -> (forall a, Q a -> Q' a) -> keeps m Q'.
Proof. intros Hm HQ s Hs. destruct (Hm s Hs). split; auto. Qed.

(** What reads the run or the files, and what raises, keeps everything. *)
Lemma keeps_unchanged {A} (m : M A) :
  (forall s, snd (m s) = s) -> keeps m (fun _ => True).
Proof. intros Hm s Hs. by rewrite Hm. Qed.

Lemma keeps_self : keeps self (fun r => state r = st0 /\ path r = p0).
Proof.
  intros s Hs. split; [exact Hs|]. simpl. intros a [= <-].
  destruct Hs as (? & ? & _). by split.
Qed.

Lemma keeps_update (f : t -> t) :
  (forall r, state (f r) = state r /\ path (f r) = path r) ->
  keeps (update f) (fun _ => True).
Proof.
  intros Hf s (Hst & Hp & Hfile). split; [|done].
  destruct (Hf (fst s)) as [Hst' Hp']. unfold record_kept. simpl.
  by rewrite Hst', Hp'.
Qed.

Lemma keeps_write_other (p : string) (f : file) :
  p <> state_file -> keeps (write_file p f) (fun _ => True).
Proof.
  intros Hp s (Hst & Hpath & Hfile). split; [|done].
  unfold record_kept. simpl. repeat split; try assumption.
  by rewrite lookup_insert_ne.
Qed.

Lemma keeps_write_record : keeps (write_file state_file (FJson st0)) (fun _ => True).
Proof.
  intros s (Hst & Hpath & Hfile). split; [|done].
  unfold record_kept. simpl. repeat split; try assumption.
  right. apply lookup_insert_eq.
Qed.

Lemma keeps_remove_other (p : string) :
  p <> state_file -> keeps (remove_file p) (fun _ => True).
Proof.
  intros Hp s (Hst & Hpath & Hfile). unfold remove_file.
  destruct (files (snd s) !! p); [|by repeat split].
  split; [|done]. unfold record_kept. simpl. repeat split; try assumption.
  by rewrite lookup_delete_ne.
Qed.

Lemma keeps_get_run_index : keeps get_run_index (fun i => i = JInt N).
Proof.
  unfold get_run_index.
  eapply keeps_bind; [apply keeps_self|]. intros r [Hst _].
  intros s Hs. split; [exact Hs|]. simpl. rewrite Hst. unfold getitem.
  rewrite run_index_N. by intros a [= <-].
Qed.

Lemma keeps_get_run_index_prefixed_path (file_base_name : string) :
  slash_free file_base_name = true -> (10 <= String.length file_base_name)%nat ->
  keeps (get_run_index_prefixed_path file_base_name) (fun p => p <> state_file).
Proof.
  intros Hbase Hlen. unfold get_run_index_prefixed_path.
  eapply keeps_bind; [apply keeps_self|]. intros r [_ Hp].
  eapply keeps_bind; [apply keeps_get_run_index|]. intros i ->.
  intros s Hs. split; [exact Hs|]. simpl. intros a [= <-].
  unfold get_full_path_from_run_file_name. rewrite Hp.
  apply path_join_ne; [by apply slash_free_prepended|reflexivity|].
  by apply prepended_ne_state.
Qed.

Ltac known_run :=
  repeat match goal with
         | Hr : state ?r = _ |- context [state ?r] => rewrite Hr
         | Hr : path ?r = _ |- context [path ?r] => rewrite Hr
         end.

(** One step of a proof that a method keeps the state record. *)
Ltac keeps_step :=
  lazymatch goal with
  | |- Run.keeps_record _ _ _ (bind (get_run_index_prefixed_path _) _) _ =>
      eapply keeps_bind;
      [apply keeps_get_run_index_prefixed_path; [reflexivity|simpl; lia] | intros ? ?]
  | |- Run.keeps_record _ _ _ (bind self _) _ =>
      eapply keeps_bind; [apply keeps_self | intros ? [? ?]]
  | |- Run.keeps_record _ _ _ (bind _ _) _ => apply keeps_seq; [|intros ?]
  | |- Run.keeps_record _ _ _ (if ?b then _ else _) _ => destruct b
  | |- Run.keeps_record _ _ _ (match ?x with _ => _ end) _ => destruct x
  | |- Run.keeps_record _ _ _ (update _) _ => apply keeps_update; by intros []
  | |- Run.keeps_record _ _ _ (write_file _ _) _ =>
      first [ apply keeps_write_other; assumption
            | known_run; apply keeps_write_record
            | known_run; apply keeps_write_other; by apply path_join_ne ]
  | |- Run.keeps_record _ _ _ (remove_file _) _ =>
      known_run; apply keeps_remove_other; by apply path_join_ne
  | |- Run.keeps_record _ _ _ _ _ =>
      first [ apply keeps_unchanged; intros [? ?]; reflexivity
            | apply keeps_unchanged; intros [? ?]; unfold get, read_file; simpl;
              by repeat case_match
            | eapply keeps_weaken; [apply keeps_get_run_index | done]
            | eapply keeps_weaken;
              [apply keeps_get_run_index_prefixed_path; [reflexivity|simpl; lia] | done]
            | solve [eauto with keeps_record] ]
  end.

Create HintDb keeps_record.

Lemma keeps_load_model (p : string) : keeps (load_model p) (fun _ => True).
Proof. unfold load_model. repeat keeps_step. Qed.

Lemma keeps_load_master_note_array (p : string) :
  keeps (load_master_note_array p) (fun _ => True).
Proof. unfold load_master_note_array. repeat keeps_step. Qed.

Lemma keeps_save_state : keeps save_state (fun _ => True).
Proof.
  unfold save_state, save_dictionary_to_json_file, get_state_path. repeat keeps_step.
Qed.

#[local] Hint Resolve keeps_load_model keeps_load_master_note_array keeps_save_state
  : keeps_record.

Lemma keeps_fetch_data (data_description : json) :
  keeps (fetch_data data_description) (fun _ => True).
Proof. unfold fetch_data. repeat keeps_step. Qed.

Lemma keeps_fetch_model (model_description : json) :
  keeps (fetch_model model_description) (fun _ => True).
Proof.
  unfold fetch_model, get_full_path_from_run_file_name. repeat keeps_step.
Qed.

Lemma keeps_checkpoint_method (g : Generator) :
  keeps (checkpoint_method g) (fun _ => True).
Proof. unfold checkpoint_method. repeat keeps_step. Qed.

#[local] Hint Resolve keeps_fetch_data keeps_fetch_model keeps_checkpoint_method
  : keeps_record.

Lemma keeps_fit (n batch : nat) (g : Generator) (model_save_name : string) (frequency : json) :
  model_save_name <> state_file ->
  keeps (fit n batch g model_save_name frequency) (fun _ => True).
Proof.
  intros Hname. revert batch g.
  induction n as [|n IH]; intros batch g; simpl; repeat keeps_step.
Qed.

Lemma keeps_execute (run_description : gmap string json) :
  keeps (execute run_description) (fun _ => True).
Proof.
  unfold execute, save_dictionary_to_json_file, get_previous_run_index_prefixed_path.
  repeat keeps_step. by apply keeps_fit.
Qed.

End StateRecord.

Section StateRecordKept.
Context `{Collaborators}.
Import Run.

(** C3: [execute] leaves the state record as it found it, whether the
    training loop completes or raises: the status in memory is still the
    "running" that construction gave it, and (at an integer run index)
    [state.json] holds what it held before or the record in memory, so no
    status other than the one in memory is ever persisted. *)
Theorem execute_keeps_status (run_description : gmap string json) (s : t * world) :
  state (fst (snd (execute run_description s))) !! "status" = state (fst s) !! "status" /\
  forall N : Z,
    state (fst s) !! "run_index" = Some (JInt N) ->
    files (snd (snd (execute run_description s))) !! get_state_path (fst s)
    = files (snd s) !! get_state_path (fst s) \/
    files (snd (snd (execute run_description s))) !! get_state_path (fst s)
    = Some (FJson (state (fst s))).
Proof.
  split; [by rewrite execute_state|].
  intros N Hidx.
  destruct (keeps_execute (state (fst s)) (path (fst s))
              (files (snd s) !! get_state_path (fst s)) N Hidx run_description s)
    as [(_ & _ & Hfile) _].
  - repeat split. by left.
  - exact Hfile.
Qed.

End StateRecordKept.

(** C3, on an instance: the new directory's run, from where [__init__] hands
    it to [execute]: the status in memory ends as "running", and
    [state.json], absent before, is absent or holds the running record. *)
Lemma execute_keeps_status_witness :
  Run.state (fst (snd (@Run.execute toy building_description fresh_start))) !! "status"
  = Some (JStr "running") /\
  (Run.files (snd (snd (@Run.execute toy building_description fresh_start)))
     !! "/runs/a/state.json" = None \/
   Run.files (snd (snd (@Run.execute toy building_description fresh_start)))
     !! "/runs/a/state.json" = Some (Run.FJson (running_state 0))).
Proof.
  destruct (@execute_keeps_status toy building_description fresh_start) as [Hmemory Hdisk].
  split; [exact Hmemory|exact (Hdisk 0 eq_refl)].
Defined.

(** ** The further properties, on the sample inputs *)

Lemma init_returns_checked_witness :
  21 + 88 <= 128 /\ ~ (1 < 1)%Q /\
  (is_Some (None : option matrix) <-> Some (replicate 176 false) = None).
Proof.
  pose proof (@init_returns_checked no_stretch None (Some (replicate 176 false)) 21 88 1
                (NoteArray.Make 21 88 1 2 (replicate 176 false)) eq_refl)
    as (_ & _ & _ & Hrange & Hres & Hone).
  exact (conj Hrange (conj Hres Hone)).
Defined.

Lemma flat_array_lengths_witness :
  @NoteArray.get_length_in_timesteps
    (NoteArray.Make 21 88 1 2 (replicate 176 false)) = Ok 2.
Proof.
  exact (proj2 (proj2 (@flat_array_lengths no_stretch (replicate 176 false) 21 88 1
                         (NoteArray.Make 21 88 1 2 (replicate 176 false)) eq_refl))).
Defined.

Lemma pianoroll_lengths_witness :
  exists na,
    @NoteArray.init no_stretch (Some sample_pianoroll) None 21 88 1 = Ok na /\
    NoteArray.time_steps na = 2 /\
    NoteArray.get_length_in_notes na = 2 * 88 /\
    (0 < 88 -> NoteArray.get_length_in_timesteps na = Ok 2).
Proof.
  apply (@pianoroll_lengths no_stretch sample_pianoroll 21 88 1).
  - split; [reflexivity|]. repeat constructor.
  - lia.
  - lia.
  - lia.
  - discriminate.
Defined.

Lemma zero_keys_witness :
  exists na,
    @NoteArray.init no_stretch (Some sample_pianoroll) None 21 0 1 = Ok na /\
    NoteArray.array na = [] /\
    NoteArray.get_length_in_notes na = 0 /\
    NoteArray.get_length_in_timesteps na = Raise ZeroDivisionError.
Proof.
  apply (proj2 (@zero_keys no_stretch sample_pianoroll [] 21 1)).
  - lia.
  - discriminate.
Defined.

Lemma flat_array_roundtrip_witness :
  exists p,
    @NoteArray.get_pianoroll no_stretch (NoteArray.Make 21 88 1 2 (replicate 176 true)) = Ok p /\
    is_pianoroll p /\
    Z.of_nat (length (rows p)) = 2 /\
    @NoteArray.init no_stretch (Some p) None 21 88 1
    = Ok (NoteArray.Make 21 88 1 2 (replicate 176 true)).
Proof.
  apply (@flat_array_roundtrip no_stretch (replicate 176 true) 21 88).
  - lia.
  - lia.
  - reflexivity.
Defined.

Lemma get_pianoroll_resolution_witness :
  exists low,
    @NoteArray.get_pianoroll no_stretch (NoteArray.Make 0 88 1 1 (replicate 88 false)) = Ok low /\
    is_pianoroll low /\
    @NoteArray.get_pianoroll no_stretch (NoteArray.Make 0 88 0 1 (replicate 88 false))
    = Raise ZeroDivisionError.
Proof.
  apply (@get_pianoroll_resolution no_stretch (replicate 88 false) 0 88 0
           (NoteArray.Make 0 88 0 1 (replicate 88 false))).
  - lia.
  - lia.
  - reflexivity.
Defined.

Lemma indexed_paths_witness :
  exists p p',
    fst (@Run.get_run_index_prefixed_path toy "trained.model" (sample_run, Run.World ∅ []))
    = Ok p /\
    fst (@Run.get_run_index_prefixed_path toy "trained.model"
           (sample_run_resumed, Run.World ∅ [])) = Ok p' /\
    basename p = pretty 2 +:+ "_" +:+ "trained.model" /\
    (2 <> 3 -> p <> p') /\
    (3 = 2 + 1 ->
     fst (@Run.get_previous_run_index_prefixed_path toy "trained.model"
            (sample_run_resumed, Run.World ∅ [])) = Ok p).
Proof.
  apply (@indexed_paths toy sample_run sample_run_resumed); reflexivity.
Defined.

Lemma save_state_load_state_witness :
  exists w',
    @Run.save_state toy (sample_run, Run.World ∅ []) = (Ok tt, (sample_run, w')) /\
    @Run.load_state toy (Run.blank "/runs/a", w')
    = (Ok tt, (Run.set_state (running_state 2) (Run.blank "/runs/a"), w')).
Proof.
  destruct (@save_state_load_state toy sample_run (Run.blank "/runs/a") (Run.World ∅ [])
              eq_refl) as (w' & Hsave & Hload & _).
  exists w'. exact (conj Hsave Hload).
Defined.

Lemma fetch_data_loads_witness :
  @Run.fetch_data toy (JDict sample_data_description) (sample_run, Run.World data_directory [])
  = (Ok tt,
     (Run.Make "/runs/a" (running_state 2) (Some (7%nat : @Model toy)) (Some 88)
        (Some (88 : @MasterNoteArray toy)) (Some (88 : @MasterNoteArray toy)),
      Run.World data_directory [])).
Proof.
  exact (proj1 (@fetch_data_loads toy sample_data_description "/data/training.mna"
                  "/data/validation.mna" 88 sample_run (Run.World data_directory [])
                  eq_refl eq_refl eq_refl) 88 eq_refl).
Defined.

Lemma fetch_model_prefers_path_witness :
  @Run.fetch_model toy (JDict both_model) (sample_run_with_data, Run.World data_directory [])
  = (Ok tt, (Run.set_model (0%nat : @Model toy) sample_run_with_data,
             Run.World data_directory [])).
Proof.
  apply (@fetch_model_prefers_path toy both_model "/models/seed.model" 0%nat 88);
    (reflexivity || discriminate).
Defined.

Lemma fetch_model_no_source_witness :
  fst (@Run.fetch_model toy (JDict ∅) (sample_run_with_data, Run.World ∅ []))
  = Raise (KeyError "model_path") /\
  fst (@Run.fetch_model toy (JDict (dict [("model_path", JStr "")]))
         (sample_run_with_data, Run.World ∅ [])) = Raise NoModelSource.
Proof.
  split.
  - exact (f_equal fst (proj1 (@fetch_model_no_source toy ∅ sample_run_with_data
                                 (Run.World ∅ [])) eq_refl)).
  - exact (f_equal fst (proj2 (@fetch_model_no_source toy (dict [("model_path", JStr "")])
                                 sample_run_with_data (Run.World ∅ [])) eq_refl eq_refl)).
Defined.

Lemma fetch_model_builds_witness :
  fst (@Run.fetch_model toy (JDict building_model) (sample_run_with_data, Run.World ∅ []))
  = Ok tt.
Proof.
  exact (f_equal fst
           (proj1 (@fetch_model_builds toy building_model
                     (dict [("path", JStr "make_model.py"); ("params", JDict ∅)])
                     "make_model.py" (JDict ∅) 2 88 sample_run_with_data (Run.World ∅ [])
                     eq_refl eq_refl eq_refl eq_refl eq_refl eq_refl ltac:(discriminate)))).
Defined.

Lemma resume_after_checkpoint_witness :
  exists (w' : @Run.world toy) (r' : @Run.t toy),
    @Run.checkpoint_method toy 7%nat (sample_run, Run.World stopped_directory [])
    = (Ok tt, (sample_run, w')) /\
    Run.state r' = <["run_index" := JInt (2 + 1)]> (running_state 2).
Proof.
  destruct (@resume_after_checkpoint toy sample_run (Run.World stopped_directory []) 7%nat
              7%nat 2 building_description building_model sample_initializer
              eq_refl eq_refl eq_refl eq_refl eq_refl)
    as (w' & r' & _ & _ & _ & _ & Hcheckpoint & _ & Hstate & _).
  exists w', r'. exact (conj Hcheckpoint Hstate).
Defined.

Lemma fit_saves_current_model_witness :
  exists m,
    Run.model (fst (snd (@Run.fit toy 2 0 0%nat (path_join "/runs/a" (pretty 2 +:+ "_trained.model"))
                           (JInt 2) (sample_run, Run.World ∅ [])))) = Some m /\
    Run.files (snd (snd (@Run.fit toy 2 0 0%nat (path_join "/runs/a" (pretty 2 +:+ "_trained.model"))
                           (JInt 2) (sample_run, Run.World ∅ []))))
      !! path_join "/runs/a" (pretty 2 +:+ "_trained.model") = Some (Run.FModel m).
Proof.
  apply (@fit_saves_current_model toy 2 0 0%nat (JInt 2) sample_run (Run.World ∅ []) 2).
  - reflexivity.
  - discriminate.
  - reflexivity.
Defined.

Lemma construct_failures_witness :
  fst (@Run.construct toy "/runs/a" ∅)
  = Raise (FileNotFoundError "/runs/a/run_description.json") /\
  fst (@Run.construct toy "/runs/a" directory_without_run_index)
  = Raise (KeyError "run_index") /\
  fst (@Run.construct toy "/runs/a" directory_without_model_description)
  = Raise (KeyError "model_description") /\
  fst (@Run.construct toy "/runs/a" stopped_directory_without_initializer)
  = Raise (KeyError "model_initializer").
Proof.
  split; [|split; [|split]].
  - exact (f_equal fst (proj1 (@construct_failures toy "/runs/a" ∅) eq_refl)).
  - exact (f_equal fst
             (proj1 (proj2 (@construct_failures toy "/runs/a" directory_without_run_index)
                       building_description ∅ eq_refl eq_refl) eq_refl)).
  - exact (f_equal fst
             (proj1 (proj2 (proj2 (@construct_failures toy "/runs/a"
                                     directory_without_model_description)
                              ∅ (running_state 0) eq_refl eq_refl) 0 eq_refl) eq_refl)).
  - exact (f_equal fst
             (proj2 (proj2 (proj2 (@construct_failures toy "/runs/a"
                                     stopped_directory_without_initializer)
                              loading_description (running_state 0) eq_refl eq_refl)
                       0 eq_refl)
                (dict [("model_path", JStr "/models/seed.model")]) eq_refl eq_refl)).
Defined.

Lemma execute_without_data_description_witness :
  fst (@Run.execute toy ∅ (sample_run, Run.World ∅ [])) = Raise (KeyError "data_description").
Proof.
  exact (f_equal fst (@execute_without_data_description toy ∅ sample_run (Run.World ∅ []) 2
                        eq_refl eq_refl)).
Defined.
